(** * imgproxy: HTTP front end (server.go, errors.go)

    A shallow embedding of the request-processing front end of imgproxy:
    the error taxonomy of [errors.go], the middleware wrappers, the health
    and HEAD/OPTIONS responders, the route table and the server set-up of
    [server.go].

    Go's package-level configuration ([config.*]) is an explicit record
    that every operation takes as an argument.  Handlers run in a small
    monad that records, in order, the calls made on the collaborators
    (response writer, response logger, error reporter, metrics) and ends
    either by returning or by panicking with a value.  The collaborators
    themselves are outside this development: a call on one of them is
    recorded and returns, except [rw.WriteHeader], which net/http makes
    panic on a status code it refuses.  A handler is run by the router on
    the response writer of a new request; what the recorded calls do to
    that writer is read off with net/http's contract (Go 1.19 or later). *)

From Stdlib Require Import ZArith Lia List.
From stdpp Require Import base strings pretty gmap list.

Local Open Scope string_scope.
Local Open Scope list_scope.
Local Open Scope Z_scope.

(* ===================================================================== *)
(** ** Go values raised by [panic] and the [error] interface             *)
(* ===================================================================== *)

(** The dynamic types an [error] value can have in this program.
    [Error] is [*ierrors.Error]; its fields follow the StructuredError of
    the specification ([None] is "unset"). *)
Inductive error : Type :=
| ErrAbortHandler                       (* http.ErrAbortHandler *)
| ForeignError (msg : string)           (* an error of any other package *)
| ResponseWriteError (cause : error)    (* struct{ error } *)
| InvalidURLError (s : string)          (* string *)
| TooManyRequestsError                  (* struct{} *)
| InvalidSecretError                    (* struct{} *)
| IError (e : Error)                    (* *ierrors.Error *)
with Error : Type :=
| mkError (err : error) (statusCode : option Z)
          (publicMessage : option string) (shouldReport : bool).

(** A value handed to [panic]: an [error], or anything else. *)
Inductive value : Type :=
| VError (e : error)
| VOther (repr : string).

(** [recover] result asserted to [error]: [err, ok := rerr.(error)]. *)
Definition as_error (v : value) : option error :=
  match v with
  | VError e => Some e
  | VOther _ => None
  end.

(** [rerr == http.ErrAbortHandler]: identity of the sentinel value. *)
Definition is_ErrAbortHandler (v : value) : bool :=
  match v with
  | VError ErrAbortHandler => true
  | _ => false
  end.

(** The [Error()] method of every error type.  For the types of
    [errors.go] this is the source; [http.ErrAbortHandler] has the text
    net/http gives it; for [*ierrors.Error], whose package is not among
    the sources, it is the diagnostic message of the cause. *)
Fixpoint error_message (e : error) : string :=
  match e with
  | ErrAbortHandler => "net/http: abort Handler"
  | ForeignError msg => msg
  | ResponseWriteError cause => "Failed to write response: " +:+ error_message cause
  | InvalidURLError s => s
  | TooManyRequestsError => "Too many requests"
  | InvalidSecretError => "Invalid secret"
  | IError (mkError cause _ _ _) => error_message cause
  end.

(** [Unwrap] of [ResponseWriteError]. *)
Definition ResponseWriteError_Unwrap (cause : error) : error := cause.

(* ===================================================================== *)
(** ** Package ierrors                                                   *)
(* ===================================================================== *)

Module ierrors.

Definition err (e : Error) : error :=
  match e with mkError c _ _ _ => c end.
Definition statusCode (e : Error) : option Z :=
  match e with mkError _ s _ _ => s end.
Definition publicMessage (e : Error) : option string :=
  match e with mkError _ _ m _ => m end.
Definition shouldReport (e : Error) : bool :=
  match e with mkError _ _ _ r => r end.

(** Functional options: functions that update an [Error] in place. *)
Definition Option := Error -> Error.

(** Modelled from the spec: package ierrors is not among the sources.
    "Options set status code, public message, and report flag": this one
    sets the status code. *)
Definition WithStatusCode (s : Z) : Option :=
  fun e => mkError (err e) (Some s) (publicMessage e) (shouldReport e).

(** Modelled from the spec: the option of package ierrors that sets the
    public message. *)
Definition WithPublicMessage (m : string) : Option :=
  fun e => mkError (err e) (statusCode e) (Some m) (shouldReport e).

(** Modelled from the spec: the option of package ierrors that sets the
    report flag. *)
Definition WithShouldReport (r : bool) : Option :=
  fun e => mkError (err e) (statusCode e) (publicMessage e) r.

(** Modelled from the spec: [wrap(cause, skipFrames, options...)] of
    package ierrors "normalizes any failure into the taxonomy.  If cause
    is already a StructuredError, returns it unchanged.  Options set
    status code, public message, and report flag; unset options keep
    prior values or defaults (status 500, generic Internal Server Error
    message, report=true)".  [skipFrames] only selects stack metadata,
    which is "not for control decisions". *)
Definition Wrap (cause : error) (skipFrames : Z) (opts : list Option) : Error :=
  let e := match cause with
           | IError e => e
           | _ => mkError cause None None true
           end in
  fold_left (fun acc (o : Option) => o acc) opts e.

(** Modelled from the spec: [statusCode()] of package ierrors, "default:
    an internal-error status if unset". *)
Definition StatusCode (e : Error) : Z := default 500 (statusCode e).

(** Modelled from the spec: [publicMessage()] of package ierrors,
    "defaults to a generic message when absent". *)
Definition PublicMessage (e : Error) : string :=
  default "Internal Server Error" (publicMessage e).

(** Modelled from the spec: [shouldReport()] of package ierrors,
    "defaults to true unless explicitly suppressed". *)
Definition ShouldReport (e : Error) : bool := shouldReport e.

(** Modelled from the spec: [fullMessage()] of package ierrors, the
    [Error()] method: the diagnostic detail of the cause. *)
Definition Error_ (e : Error) : string := error_message (IError e).

End ierrors.

(* ===================================================================== *)
(** ** errors.go                                                         *)
(* ===================================================================== *)

Definition StatusOK : Z := 200.
Definition StatusForbidden : Z := 403.
Definition StatusTooManyRequests : Z := 429.
Definition StatusInternalServerError : Z := 500.

Definition newResponseWriteError (cause : error) : Error :=
  ierrors.Wrap (ResponseWriteError cause) 1
    [ierrors.WithPublicMessage "Failed to write response"].

(** [formatted] is [fmt.Sprintf(format, args...)]. *)
Definition newInvalidURLErrorf (status : Z) (formatted : string) : error :=
  IError (ierrors.Wrap (InvalidURLError formatted) 1
            [ierrors.WithStatusCode status;
             ierrors.WithPublicMessage "Invalid URL";
             ierrors.WithShouldReport false]).

Definition newTooManyRequestsError : error :=
  IError (ierrors.Wrap TooManyRequestsError 1
            [ierrors.WithStatusCode StatusTooManyRequests;
             ierrors.WithPublicMessage "Too many requests";
             ierrors.WithShouldReport false]).

Definition newInvalidSecretError : error :=
  IError (ierrors.Wrap InvalidSecretError 1
            [ierrors.WithStatusCode StatusForbidden;
             ierrors.WithPublicMessage "Forbidden";
             ierrors.WithShouldReport false]).

(* ===================================================================== *)
(** ** Fixed-width integers, strings and bytes                           *)
(* ===================================================================== *)

(** Go's [int] and [int64] on the 64-bit targets imgproxy is built for:
    arithmetic wraps around modulo 2^64. *)
Definition wrap64 (z : Z) : Z := (z + 2 ^ 63) mod 2 ^ 64 - 2 ^ 63.
Definition uint8 (z : Z) : Z := z mod 2 ^ 8.
Definition uint32 (z : Z) : Z := z mod 2 ^ 32.

(** [len(s)] of a string, as an [int]. *)
Definition len (s : string) : Z := Z.of_nat (String.length s).

(** The conversion [[]byte(s)]; a byte is its value in [0, 256). *)
Fixpoint bytes (s : string) : list Z :=
  match s with
  | EmptyString => []
  | String a s' => Z.of_N (Ascii.N_of_ascii a) :: bytes s'
  end.

(** Package time: a [Duration] is an [int64] count of nanoseconds. *)
Module time.
Definition Duration (n : Z) : Z := wrap64 n.
Definition Second : Z := 1000000000.
Definition mul (a b : Z) : Z := wrap64 (a * b).
End time.

(** Package crypto/subtle, as the two functions [withSecret] reaches. *)
Module subtle.

(** [int((uint32(x^y) - 1) >> 31)] *)
Definition ConstantTimeByteEq (x y : Z) : Z :=
  Z.shiftr (uint32 (uint32 (Z.lxor x y) - 1)) 31.

(** The loop [for i := range x { v |= x[i] ^ y[i] }] over slices of
    equal length, [v] being a [byte]. *)
Fixpoint accumulate (v : Z) (x y : list Z) : Z :=
  match x, y with
  | a :: x', b :: y' => accumulate (uint8 (Z.lor v (Z.lxor a b))) x' y'
  | _, _ => v
  end.

Definition ConstantTimeCompare (x y : list Z) : Z :=
  if negb (Nat.eqb (length x) (length y)) then 0
  else ConstantTimeByteEq (accumulate 0 x y) 0.

End subtle.

(* ===================================================================== *)
(** ** Configuration and requests                                        *)
(* ===================================================================== *)

(** The fields of package config that [server.go] reads, and the answer of
    [metrics.Enabled()]; all numeric fields are Go [int]s. *)
Record Config : Type := mkConfig {
  PathPrefix : string;
  Network : string;
  Bind : string;
  MaxClients : Z;
  ReadRequestTimeout : Z;
  KeepAliveTimeout : Z;
  AllowOrigin : string;
  Secret : string;
  DevelopmentErrorsMode : bool;
  MetricsEnabled : bool
}.

(** [*http.Request]: what the handlers of [server.go] look at.  [Context]
    lists, innermost first, the collaborators that attached a context. *)
Record Request : Type := mkRequest {
  Method : string;
  Path : string;
  Header : gmap string (list string);
  Context : list string
}.

(** [r.Header.Get(key)] for a key in canonical form: the first value. *)
Definition Header_Get (h : gmap string (list string)) (key : string) : string :=
  match h !! key with
  | Some (v :: _) => v
  | _ => ""
  end.

(** [r.WithContext(ctx)], [ctx] being derived from [r]'s by [owner]. *)
Definition WithContext (r : Request) (owner : string) : Request :=
  mkRequest (Method r) (Path r) (Header r) (owner :: Context r).

(* ===================================================================== *)
(** ** The handler monad                                                 *)
(* ===================================================================== *)

(** Calls on the collaborators, in the order they are made. *)
Inductive event : Type :=
| HeaderSet (key val : string)        (* rw.Header().Set(key, val) *)
| WriteHeader (status : Z)            (* rw.WriteHeader(status) *)
| Write (body : string)               (* rw.Write(body) *)
| LogResponse (reqID : string) (status : Z) (ierr : option Error)
                                      (* router.LogResponse(reqID, r, status, ierr) *)
| Report (err : error)                (* errorreport.Report(err, r) *)
| ReportStartRequest                  (* errorreport.StartRequest(r) *)
| SetMetadata (key val : string)      (* errorreport.SetMetadata(r, key, val) *)
| MetricsStartRequest                 (* metrics.StartRequest(ctx, rw, r) *)
| MetricsCancel.                      (* metricsCancel() *)

(** How a call ends: it returns, or it panics with a value. *)
Inductive outcome (A : Type) : Type :=
| Returned (a : A)
| Panicked (v : value).
Arguments Returned {A} a.
Arguments Panicked {A} v.

Definition M (A : Type) : Type := (list event * outcome A)%type.

#[global] Instance M_ret : MRet M := fun A a => ([], Returned a).

#[global] Instance M_bind : MBind M := fun A B f m =>
  match m with
  | (t, Returned a) => let '(t', o) := f a in (t ++ t', o)
  | (t, Panicked v) => (t, Panicked v)
  end.

Definition emit (e : event) : M unit := ([e], Returned tt).
Definition panic {A : Type} (v : value) : M A := ([], Panicked v).
Definition trace {A : Type} (m : M A) : list event := fst m.
Definition result {A : Type} (m : M A) : outcome A := snd m.

(** [defer cleanup(); body]: the deferred call runs on every exit path and
    keeps the outcome of the body, unless it panics itself. *)
Definition defer (cleanup : M unit) (body : M unit) : M unit :=
  let '(t, o) := body in
  match cleanup with
  | (t', Returned _) => (t ++ t', o)
  | (t', Panicked v) => (t ++ t', Panicked v)
  end.

(** [defer func() { if rerr := recover(); rerr != nil { handler } }(); body]:
    [recover] yields the raised value and stops the panic; the handler
    may raise again.  The deferred function acts on the response writer
    as the body left it: it is given the calls the body made. *)
Definition defer_recover (handler : list event -> value -> M unit) (body : M unit)
    : M unit :=
  match body with
  | (t, Returned a) => (t, Returned a)
  | (t, Panicked rerr) => let '(t', o) := handler t rerr in (t ++ t', o)
  end.

(** [router.RouteHandler]; the response writer is the event sink. *)
Definition RouteHandler : Type := string -> Request -> M unit.

(* ===================================================================== *)
(** ** net/http's response writer                                        *)
(* ===================================================================== *)

(** The writer's state as the handler drives it: the header map being
    filled, the status line once it has been sent, with the snapshot of
    the header map taken at that moment, and the body bytes accepted so
    far.  Outside this state: the headers net/http adds to the snapshot
    when it writes to the connection (Date, Content-Length, a sniffed
    Content-Type when the handler set none), its reading of the headers
    a handler sets (a declared Content-Length bounds the body; keys are
    kept as they were spelled), and the body of a HEAD request, which is
    accepted but not transmitted. *)
Record Writer : Type := mkWriter {
  pending : gmap string (list string);
  sent : option (Z * gmap string (list string));
  written : string
}.

Definition new_writer : Writer := mkWriter ∅ None "".

(** [checkWriteHeaderCode]: the status codes [WriteHeader] accepts. *)
Definition valid_status (n : Z) : bool := (100 <=? n) && (n <=? 999).

(** A 1xx status other than 101 is an interim response: it is sent at
    once and the final status line is still to come. *)
Definition informational (n : Z) : bool :=
  (100 <=? n) && (n <=? 199) && negb (n =? 101).

(** [bodyAllowedForStatus]: no body goes with 1xx, 204 and 304. *)
Definition body_allowed (n : Z) : bool :=
  negb (((100 <=? n) && (n <=? 199)) || (n =? 204) || (n =? 304)).

(** net/http's contract: [Header().Set] replaces the values of a key.
    [WriteHeader] is superfluous once a status line was sent; before
    that it panics on a refused code and changes nothing, sends an
    interim response for an informational code, and otherwise sends the
    status line with the headers set so far.  [Write] sends an implicit
    200 first when no status line was sent, and appends to the body
    unless the status sent allows none. *)
Definition writer_step (w : Writer) (e : event) : Writer :=
  match e with
  | HeaderSet k v => mkWriter (<[k := [v]]> (pending w)) (sent w) (written w)
  | WriteHeader n =>
      match sent w with
      | None =>
          if valid_status n && negb (informational n)
          then mkWriter (pending w) (Some (n, pending w)) (written w)
          else w
      | Some _ => w
      end
  | Write b =>
      match sent w with
      | None => mkWriter (pending w) (Some (StatusOK, pending w)) (written w +:+ b)
      | Some p =>
          if body_allowed (fst p)
          then mkWriter (pending w) (sent w) (written w +:+ b)
          else w
      end
  | _ => w
  end.

Definition response_of (t : list event) : Writer := fold_left writer_step t new_writer.

Definition response_status (t : list event) : option Z :=
  fst <$> sent (response_of t).
Definition response_header (t : list event) (key : string) : option (list string) :=
  sent (response_of t) ≫= fun p => snd p !! key.
Definition response_body (t : list event) : string := written (response_of t).

(** A status line has been sent by the calls made so far. *)
Definition header_sent (t : list event) : bool :=
  match sent (response_of t) with
  | Some _ => true
  | None => false
  end.

(** [WriteHeader] goes through: a status line was sent already (the call
    is superfluous), or the code is one net/http accepts. *)
Definition accepted (t : list event) (status : Z) : bool :=
  header_sent t || valid_status status.

(** The value [checkWriteHeaderCode] panics with:
    [fmt.Sprintf("invalid WriteHeader code %v", code)]. *)
Definition invalid_code (status : Z) : value :=
  VOther ("invalid WriteHeader code " +:+ pretty status).

(** The call [rw.WriteHeader(status)] after the calls [t] on the same
    writer. *)
Definition rw_WriteHeader (t : list event) (status : Z) : M unit :=
  if accepted t status then emit (WriteHeader status)
  else ([WriteHeader status], Panicked (invalid_code status)).

(* ===================================================================== *)
(** ** Package router: the route table                                   *)
(* ===================================================================== *)

Module router.

Record Route : Type := mkRoute {
  RouteMethod : string;
  RoutePrefix : string;
  Handler : RouteHandler;
  Exact : bool
}.

Record Router : Type := mkRouter {
  prefix : string;
  Routes : list Route;
  HealthHandler : option RouteHandler
}.

(** Modelled from the spec: package router is not among the sources.
    "register (method, path, handler) triples at build time"; the table
    keeps the triples in registration order. *)
Definition New (prefix : string) : Router := mkRouter prefix [] None.

(** Modelled from the spec: registration appends one route entry
    "(method, path, handler, requiresExactPrefixMatch)". *)
Definition Add (r : Router) (method path : string) (h : RouteHandler)
    (exact : bool) : Router :=
  mkRouter (prefix r) (Routes r ++ [mkRoute method path h exact])
           (HealthHandler r).

Definition GET r path h exact := Add r "GET" path h exact.
Definition HEAD r path h exact := Add r "HEAD" path h exact.
Definition OPTIONS r path h exact := Add r "OPTIONS" path h exact.

(** The assignment [r.HealthHandler = h]. *)
Definition SetHealthHandler (r : Router) (h : RouteHandler) : Router :=
  mkRouter (prefix r) (Routes r) (Some h).

End router.

(* ===================================================================== *)
(** ** Package net/http and the listener                                 *)
(* ===================================================================== *)

Module http.

(** The fields of [http.Server] that [startServer] sets; durations are
    nanoseconds.  [disableKeepAlives] is what [SetKeepAlivesEnabled]
    toggles. *)
Record Server : Type := mkServer {
  ServerHandler : router.Router;
  ReadTimeout : Z;
  MaxHeaderBytes : Z;
  IdleTimeout : Z;
  disableKeepAlives : bool
}.

Definition SetKeepAlivesEnabled (s : Server) (v : bool) : Server :=
  mkServer (ServerHandler s) (ReadTimeout s) (MaxHeaderBytes s)
           (IdleTimeout s) (negb v).

Definition SetIdleTimeout (s : Server) (d : Z) : Server :=
  mkServer (ServerHandler s) (ReadTimeout s) (MaxHeaderBytes s)
           d (disableKeepAlives s).

End http.

(** A listener: the one [reuseport.Listen] bound, possibly wrapped by
    [netutil.LimitListener]. *)
Inductive Listener : Type :=
| Bound (network address : string)
| LimitListener (l : Listener) (n : Z).

(* ===================================================================== *)
(** ** server.go                                                         *)
(* ===================================================================== *)

Definition imgproxyIsRunningMsg : string := "imgproxy is running".

(** Lines 186-188 of [handleHealth]: an empty body becomes one space. *)
Definition nonempty_body (msg : string) : string :=
  if len msg =? 0 then " " else msg.

Section Server.

Variable cfg : Config.

(** Handlers of package main that live in other files. *)
Variable handleLanding : RouteHandler.
Variable handleProcessing : RouteHandler.

(** [vips.Health()]: [None] is a nil error. *)
Variable vips_Health : option error.

(** [reuseport.Listen(network, address)]. *)
Variable reuseport_Listen : string -> string -> Listener + error.

(** [metrics.StartRequest] hands back a context, the deferred
    [metricsCancel] and a response writer that forwards to the one it
    was given. *)
Definition withMetrics (h : RouteHandler) : RouteHandler :=
  if negb (MetricsEnabled cfg) then h
  else fun reqID r =>
    emit MetricsStartRequest ;;
    defer (emit MetricsCancel) (h reqID (WithContext r "metrics")).

Definition withCORS (h : RouteHandler) : RouteHandler :=
  fun reqID r =>
    (if 0 <? len (AllowOrigin cfg) then
       emit (HeaderSet "Access-Control-Allow-Origin" (AllowOrigin cfg)) ;;
       emit (HeaderSet "Access-Control-Allow-Methods" "GET, OPTIONS")
     else mret tt) ;;
    h reqID r.

Definition withSecret (h : RouteHandler) : RouteHandler :=
  if len (Secret cfg) =? 0 then h
  else
    let authHeader := bytes ("Bearer " +:+ Secret cfg) in
    fun reqID r =>
      if subtle.ConstantTimeCompare
           (bytes (Header_Get (Header r) "Authorization")) authHeader =? 1
      then h reqID r
      else panic (VError newInvalidSecretError).

(** The deferred function of [withPanicHandler], given the calls the
    inner handler made and [recover]'s non-nil result.  Its own calls
    before [rw.WriteHeader] send nothing, so whether a status line was
    sent is decided by the inner handler's calls. *)
Definition recovered (reqID : string) (t : list event) (rerr : value) : M unit :=
  if is_ErrAbortHandler rerr then panic rerr
  else
    match as_error rerr with
    | None => panic rerr
    | Some err =>
        let ierr := ierrors.Wrap err 0 [] in
        (if ierrors.ShouldReport ierr then emit (Report err) else mret tt) ;;
        emit (LogResponse reqID (ierrors.StatusCode ierr) (Some ierr)) ;;
        emit (HeaderSet "Content-Type" "text/plain") ;;
        rw_WriteHeader t (ierrors.StatusCode ierr) ;;
        if DevelopmentErrorsMode cfg
        then emit (Write (ierrors.Error_ ierr))
        else emit (Write (ierrors.PublicMessage ierr))
    end.

Definition withPanicHandler (h : RouteHandler) : RouteHandler :=
  fun reqID r =>
    emit ReportStartRequest ;;
    let r := WithContext r "errorreport" in
    emit (SetMetadata "Request ID" reqID) ;;
    defer_recover (recovered reqID) (h reqID r).

Definition handleHealth : RouteHandler :=
  fun reqID r =>
    let '(status, msg, ierr) :=
      match vips_Health with
      | None => (StatusOK, imgproxyIsRunningMsg, None)
      | Some err =>
          (StatusInternalServerError, "Error", Some (ierrors.Wrap err 1 []))
      end in
    let msg := nonempty_body msg in
    match ierr with
    | Some _ => emit (LogResponse reqID status ierr)
    | None => mret tt
    end ;;
    emit (HeaderSet "Content-Type" "text/plain") ;;
    emit (HeaderSet "Cache-Control" "no-cache") ;;
    emit (WriteHeader status) ;;
    emit (Write msg).

Definition handleHead : RouteHandler :=
  fun reqID r =>
    emit (LogResponse reqID 200 None) ;;
    emit (WriteHeader 200).

Definition buildRouter : router.Router :=
  let r := router.New (PathPrefix cfg) in
  let r := router.GET r "/" handleLanding true in
  let r := router.GET r "" handleLanding true in
  let r := router.GET r "/"
             (withMetrics (withPanicHandler (withCORS (withSecret handleProcessing))))
             false in
  let r := router.HEAD r "/" (withCORS handleHead) false in
  let r := router.OPTIONS r "/" (withCORS handleHead) false in
  router.SetHealthHandler r handleHealth.

(** [startServer] up to the point where the serving goroutine is
    started: the configured server and the listener handed to [Serve],
    or the error message.  The [ErrorLog] field, a logger, is left out. *)
Definition startServer : (http.Server * Listener) + string :=
  match reuseport_Listen (Network cfg) (Bind cfg) with
  | inr err => inr ("Can't start server: " +:+ error_message err)
  | inl l =>
      let l := if 0 <? MaxClients cfg
               then LimitListener l (MaxClients cfg) else l in
      let s := http.mkServer
                 buildRouter
                 (time.mul (time.Duration (ReadRequestTimeout cfg)) time.Second)
                 (Z.shiftl 1 20)
                 0
                 false in
      let s := if 0 <? KeepAliveTimeout cfg
               then http.SetIdleTimeout s
                      (time.mul (time.Duration (KeepAliveTimeout cfg)) time.Second)
               else http.SetKeepAlivesEnabled s false in
      inl (s, l)
  end.

End Server.

(* ===================================================================== *)
(** ** Counting calls                                                    *)
(* ===================================================================== *)

Definition is_WriteHeader (e : event) : bool :=
  match e with WriteHeader _ => true | _ => false end.
Definition is_Write (e : event) : bool :=
  match e with Write _ => true | _ => false end.
Definition is_Report (e : event) : bool :=
  match e with Report _ => true | _ => false end.
Definition is_LogResponse (e : event) : bool :=
  match e with LogResponse _ _ _ => true | _ => false end.

(** How many times a kind of call occurs in a trace. *)
Definition calls (kind : event -> bool) (t : list event) : nat :=
  length (List.filter kind t).

(** The trace touches neither the status line nor the body. *)
Definition wrote_nothing (t : list event) : bool :=
  forallb (fun e => negb (is_WriteHeader e || is_Write e)) t.

(* ===================================================================== *)
(** ** Reference descriptions used in the statements                     *)
(* ===================================================================== *)

(** Status, public message and report flag of a structured error. *)
Definition policy (e : Error) : Z * string * bool :=
  (ierrors.StatusCode e, ierrors.PublicMessage e, ierrors.ShouldReport e).

(** The headers the CORS wrapper sets. *)
Definition cors_headers (cfg : Config) : list event :=
  if 0 <? len (AllowOrigin cfg)
  then [HeaderSet "Access-Control-Allow-Origin" (AllowOrigin cfg);
        HeaderSet "Access-Control-Allow-Methods" "GET, OPTIONS"]
  else [].

(** The body of an error response. *)
Definition error_body (cfg : Config) (ierr : Error) : string :=
  if DevelopmentErrorsMode cfg then ierrors.Error_ ierr
  else ierrors.PublicMessage ierr.

(** The calls that render a recovered error [err] as a response. *)
Definition rendering (cfg : Config) (reqID : string) (err : error) : list event :=
  let ierr := ierrors.Wrap err 0 [] in
  (if ierrors.ShouldReport ierr then [Report err] else []) ++
  [LogResponse reqID (ierrors.StatusCode ierr) (Some ierr);
   HeaderSet "Content-Type" "text/plain";
   WriteHeader (ierrors.StatusCode ierr);
   Write (error_body cfg ierr)].

(** The same calls up to the status line, without the body. *)
Definition announced (reqID : string) (err : error) : list event :=
  let ierr := ierrors.Wrap err 0 [] in
  (if ierrors.ShouldReport ierr then [Report err] else []) ++
  [LogResponse reqID (ierrors.StatusCode ierr) (Some ierr);
   HeaderSet "Content-Type" "text/plain";
   WriteHeader (ierrors.StatusCode ierr)].


(** The request is authorised for the configured secret. *)
Definition authorized (cfg : Config) (r : Request) : bool :=
  String.eqb (Header_Get (Header r) "Authorization") ("Bearer " +:+ Secret cfg).

(** A byte value. *)
Definition is_byte (b : Z) : Prop := 0 <= b < 256.

(** ** Sample inputs *)

Module Sample.

(** A handler that returns at once. *)
Definition idle : RouteHandler := fun _ _ => mret tt.

(** A listener that always binds. *)
Definition listen (network address : string) : Listener + error :=
  inl (Bound network address).

(** A configuration with a secret, an allowed origin and metrics. *)
Definition cfg : Config :=
  mkConfig "" "tcp" ":8080" 0 10 10 "*" "s3cret" false true.

(** The same configuration with every optional feature switched off. *)
Definition bare : Config :=
  mkConfig "" "tcp" ":8080" 0 10 0 "" "" false false.

(** A keep-alive timeout of 9223372037 seconds, a bit over 292 years. *)
Definition long_keepalive : Config :=
  mkConfig "" "tcp" ":8080" 0 10 9223372037 "" "" false false.

Definition GET_root (auth : list string) : Request :=
  mkRequest "GET" "/" {[ "Authorization" := auth ]} [].

End Sample.

(** A raised value the fault-isolation wrapper lets through. *)
Definition reraised (v : value) : Prop :=
  v = VError ErrAbortHandler \/ exists repr, v = VOther repr.

(** The configuration with another shared secret. *)
Definition with_Secret (cfg : Config) (secret : string) : Config :=
  mkConfig (PathPrefix cfg) (Network cfg) (Bind cfg) (MaxClients cfg)
           (ReadRequestTimeout cfg) (KeepAliveTimeout cfg) (AllowOrigin cfg)
           secret (DevelopmentErrorsMode cfg) (MetricsEnabled cfg).

(** The routes of a table registered for one of the given methods. *)
Definition routes_for (methods : list string) (r : router.Router) : list router.Route :=
  List.filter (fun rt => bool_decide (router.RouteMethod rt ∈ methods)) (router.Routes r).

(** ** Faulty handlers *)

Module Faulty.

(** A handler that panics with a plain error before writing anything. *)
Definition fails_early : RouteHandler :=
  fun _ _ => panic (VError (ForeignError "boom")).

(** The response-write failure of a connection that broke. *)
Definition broken_pipe : Error :=
  newResponseWriteError (ForeignError "broken pipe").

(** A handler that panics, before writing anything, with an invalid-URL
    failure whose status code net/http refuses. *)
Definition fails_with_status_99 : RouteHandler :=
  fun _ _ => panic (VError (newInvalidURLErrorf 99 "bad request")).

(** A handler that sends a status line and part of a body, and panics
    with that failure when the connection breaks. *)
Definition fails_late : RouteHandler :=
  fun _ _ =>
    emit (WriteHeader 200) ;;
    emit (Write "partial") ;;
    panic (VError (IError broken_pipe)).

End Faulty.

(** Fault isolation applied to the calls [t] and the outcome of what
    runs beneath it: a return stays a return, the peer-abort signal and
    non-error values are raised again, every other error is rendered,
    unless net/http refuses its status code: then the panic of
    [rw.WriteHeader] takes the place of the body. *)
Definition isolate (cfg : Config) (reqID : string) (t : list event)
    (o : outcome unit) : M unit :=
  match o with
  | Returned a => ([], Returned a)
  | Panicked (VError ErrAbortHandler) => ([], Panicked (VError ErrAbortHandler))
  | Panicked (VError err) =>
      let status := ierrors.StatusCode (ierrors.Wrap err 0 []) in
      if accepted t status then (rendering cfg reqID err, Returned tt)
      else (announced reqID err, Panicked (invalid_code status))
  | Panicked (VOther repr) => ([], Panicked (VOther repr))
  end.

(** What serving a request does when the layers are, from the outside in:
    metrics, fault isolation, CORS, secret authentication, business
    handler. *)
Definition layered (cfg : Config) (business : RouteHandler) (reqID : string)
    (r : Request) : M unit :=
  let metered := MetricsEnabled cfg in
  let r := if metered then WithContext r "metrics" else r in
  let r := WithContext r "errorreport" in
  let admitted := (len (Secret cfg) =? 0) || authorized cfg r in
  let inner := if admitted then business reqID r
               else panic (VError newInvalidSecretError) in
  let handled := isolate cfg reqID (trace inner) (result inner) in
  ((if metered then [MetricsStartRequest] else [])
     ++ [ReportStartRequest; SetMetadata "Request ID" reqID]
     ++ cors_headers cfg
     ++ trace inner
     ++ trace handled
     ++ (if metered then [MetricsCancel] else []),
   result handled).

(* ===================================================================== *)
(** ** The serving goroutine and shutdown                                *)
(* ===================================================================== *)

(** What [s.Serve(l)] returns when it is not nil: the sentinel
    [http.ErrServerClosed], or another error. *)
Inductive serve_error : Type :=
| ErrServerClosed
| ServeFailed (err : error).

(** Calls on the logger, the cancel function and the server, in order. *)
Inductive lifecycle_event : Type :=
| LogInfo (msg : string)              (* log.Info, log.Infof *)
| LogError (msg : string)             (* log.Error *)
| Cancel                              (* cancel() *)
| Shutdown (timeout : Z).             (* s.Shutdown(ctx), ctx ending after timeout *)

(** The goroutine [startServer] starts (lines 69-75); [served] is what
    [s.Serve(l)] returned, [None] being nil. *)
Definition serving (cfg : Config) (served : option serve_error) : list lifecycle_event :=
  [LogInfo ("Starting server at " +:+ Bind cfg)]
    ++ match served with
       | Some (ServeFailed err) => [LogError (error_message err)]
       | _ => []
       end
    ++ [Cancel].

Definition shutdownServer : list lifecycle_event :=
  [LogInfo "Shutting down the server...";
   Shutdown (time.mul 5 time.Second)].

(** The trace sets the response header [key] itself. *)
Definition sets_header (key : string) (t : list event) : bool :=
  existsb (fun e => match e with
                    | HeaderSet k _ => String.eqb k key
                    | _ => false
                    end) t.

(** The request as the business handler of the main route receives it. *)
Definition as_processed (cfg : Config) (r : Request) : Request :=
  WithContext (if MetricsEnabled cfg then WithContext r "metrics" else r)
              "errorreport".

(** The handler [buildRouter] registers for the main route. *)
Definition main_handler (cfg : Config) (handleProcessing : RouteHandler) : RouteHandler :=
  withMetrics cfg (withPanicHandler cfg (withCORS cfg (withSecret cfg handleProcessing))).

(* ===================================================================== *)
(** * Properties                                                         *)
(* ===================================================================== *)

(** ** Bytes and the constant-time comparison *)

Lemma bytes_are_bytes (s : string) : Forall is_byte (bytes s).
Proof.
  induction s as [|a s IH]; constructor; [|exact IH].
  pose proof (Ascii.N_ascii_bounded a) as Hb.
  unfold is_byte. lia.
Qed.

Lemma bytes_inj (s1 s2 : string) : bytes s1 = bytes s2 -> s1 = s2.
Proof.
  revert s2. induction s1 as [|a s1 IH]; intros [|b s2] Heq;
    simpl in Heq; try discriminate; [reflexivity|].
  injection Heq as Hab Hrest.
  apply N2Z.inj in Hab.
  f_equal; [|auto].
  rewrite <- (Ascii.ascii_N_embedding a), <- (Ascii.ascii_N_embedding b).
  now rewrite Hab.
Qed.

Lemma bytes_length (s : string) : length (bytes s) = String.length s.
Proof. induction s; simpl; congruence. Qed.

Lemma below_pow2_log2 (a n : Z) : 0 <= a -> 0 < n -> (a < 2 ^ n <-> Z.log2 a < n).
Proof.
  intros Ha Hn. destruct (Z.eq_dec a 0) as [->|Hnz].
  - simpl. split; intros _; [lia|]. apply Z.pow_pos_nonneg; lia.
  - apply Z.log2_lt_pow2. lia.
Qed.

Lemma lor_lxor_is_byte (v a b : Z) :
  is_byte v -> is_byte a -> is_byte b -> is_byte (Z.lor v (Z.lxor a b)).
Proof.
  unfold is_byte. change 256 with (2 ^ 8). intros [Hv0 Hv] [Ha0 Ha] [Hb0 Hb].
  assert (Hx0 : 0 <= Z.lxor a b) by (apply Z.lxor_nonneg; tauto).
  split; [apply Z.lor_nonneg; tauto|].
  apply below_pow2_log2; [apply Z.lor_nonneg; tauto | lia |].
  rewrite Z.log2_lor by assumption.
  apply below_pow2_log2 in Hv, Ha, Hb; try lia.
  pose proof (Z.log2_lxor a b Ha0 Hb0). lia.
Qed.

Lemma ConstantTimeByteEq_zero (v : Z) :
  is_byte v -> (subtle.ConstantTimeByteEq v 0 = 1 <-> v = 0).
Proof.
  unfold is_byte, subtle.ConstantTimeByteEq, uint32. intros Hv.
  rewrite Z.lxor_0_r, Z.shiftr_div_pow2 by lia.
  rewrite (Z.mod_small v) by lia.
  destruct (Z.eq_dec v 0) as [->|Hnz].
  - split; [reflexivity|intros _; reflexivity].
  - rewrite (Z.mod_small (v - 1)) by lia.
    rewrite Z.div_small by lia. split; [discriminate|contradiction].
Qed.

Lemma accumulate_is_byte (x y : list Z) (v : Z) :
  is_byte v -> Forall is_byte x -> Forall is_byte y ->
  is_byte (subtle.accumulate v x y).
Proof.
  revert y v. induction x as [|a x IH]; intros [|b y] v Hv Hx Hy; simpl; auto.
  inversion Hx; inversion Hy; subst.
  apply IH; auto.
  unfold uint8. change (2 ^ 8) with 256.
  rewrite Z.mod_small; apply lor_lxor_is_byte; auto.
Qed.

Lemma accumulate_zero (x y : list Z) (v : Z) :
  is_byte v -> Forall is_byte x -> Forall is_byte y -> length x = length y ->
  (subtle.accumulate v x y = 0 <-> v = 0 /\ x = y).
Proof.
  revert y v. induction x as [|a x IH]; intros [|b y] v Hv Hx Hy Hlen;
    simpl in *; try discriminate.
  - tauto.
  - inversion Hx; inversion Hy; subst.
    assert (Hstep : is_byte (Z.lor v (Z.lxor a b))) by (apply lor_lxor_is_byte; auto).
    unfold uint8. change (2 ^ 8) with 256.
    rewrite Z.mod_small by exact Hstep.
    rewrite IH by (auto; lia).
    rewrite Z.lor_eq_0_iff, Z.lxor_eq_0_iff.
    split.
    + intros [[-> ->] ->]. auto.
    + intros [-> Heq]. injection Heq as -> ->. auto.
Qed.

(** [ConstantTimeCompare] answers 1 exactly on equal byte slices. *)
Lemma ConstantTimeCompare_spec (x y : list Z) :
  Forall is_byte x -> Forall is_byte y ->
  (subtle.ConstantTimeCompare x y = 1 <-> x = y).
Proof.
  intros Hx Hy. unfold subtle.ConstantTimeCompare.
  destruct (Nat.eqb (length x) (length y)) eqn:Hlen; simpl.
  - apply Nat.eqb_eq in Hlen.
    rewrite ConstantTimeByteEq_zero
      by (apply accumulate_is_byte; auto; unfold is_byte; lia).
    rewrite accumulate_zero by (auto; unfold is_byte; lia). tauto.
  - apply Nat.eqb_neq in Hlen. split; [discriminate|].
    intros ->. contradiction.
Qed.

Lemma ConstantTimeCompare_strings (a b : string) :
  (subtle.ConstantTimeCompare (bytes a) (bytes b) =? 1) = String.eqb a b.
Proof.
  destruct (String.eqb a b) eqn:Hab.
  - apply String.eqb_eq in Hab as ->. apply Z.eqb_eq.
    apply ConstantTimeCompare_spec; auto using bytes_are_bytes.
  - apply String.eqb_neq in Hab. apply Z.eqb_neq. intros H.
    apply ConstantTimeCompare_spec in H; auto using bytes_are_bytes.
    apply bytes_inj in H. contradiction.
Qed.

(** ** The error taxonomy *)

Lemma Wrap_fresh_policy (cause : error) (opts : list ierrors.Option) :
  (forall e, cause <> IError e) ->
  ierrors.Wrap cause 1 opts =
  fold_left (fun acc (o : ierrors.Option) => o acc) opts (mkError cause None None true).
Proof. intros Hfresh. destruct cause; try reflexivity. now destruct (Hfresh e). Qed.


(** C5.  Each constructor of the error taxonomy yields a structured error
    with its fixed policy: the response-write failure has no explicit
    status and therefore the default 500, the public message
    "Failed to write response" and is reported; the invalid-URL failure
    has the status the caller gave, "Invalid URL", not reported; the
    rate-limit failure has 429, "Too many requests", not reported; the
    invalid-secret failure has 403, "Forbidden", not reported. *)
Theorem error_constructors_policy (cause : error) (status : Z) (formatted : string) :
  (ierrors.statusCode (newResponseWriteError cause) = None
   /\ policy (newResponseWriteError cause) = (500, "Failed to write response", true)
   /\ ierrors.err (newResponseWriteError cause) = ResponseWriteError cause)
  /\ (exists e, newInvalidURLErrorf status formatted = IError e
        /\ policy e = (status, "Invalid URL", false)
        /\ ierrors.err e = InvalidURLError formatted)
  /\ (exists e, newTooManyRequestsError = IError e
        /\ policy e = (429, "Too many requests", false)
        /\ ierrors.err e = TooManyRequestsError)
  /\ (exists e, newInvalidSecretError = IError e
        /\ policy e = (403, "Forbidden", false)
        /\ ierrors.err e = InvalidSecretError).
Proof.
  split; [|split; [|split]].
  - unfold newResponseWriteError.
    rewrite Wrap_fresh_policy by discriminate. repeat split.
  - eexists; split; [reflexivity|]. split; reflexivity.
  - eexists; split; [reflexivity|]. split; reflexivity.
  - eexists; split; [reflexivity|]. split; reflexivity.
Qed.

(** ** Server set-up *)

Section StartServer.

Variable cfg : Config.
Variables handleLanding handleProcessing : RouteHandler.
Variable vips_Health : option error.
Variable reuseport_Listen : string -> string -> Listener + error.

Let start := startServer cfg handleLanding handleProcessing vips_Health reuseport_Listen.

(** What [startServer] hands back when the listener could be bound. *)
Lemma startServer_inl (s : http.Server) (l : Listener) :
  start = inl (s, l) ->
  exists l0,
    reuseport_Listen (Network cfg) (Bind cfg) = inl l0
    /\ l = (if 0 <? MaxClients cfg then LimitListener l0 (MaxClients cfg) else l0)
    /\ http.ReadTimeout s
       = time.mul (time.Duration (ReadRequestTimeout cfg)) time.Second
    /\ http.MaxHeaderBytes s = Z.shiftl 1 20
    /\ http.IdleTimeout s
       = (if 0 <? KeepAliveTimeout cfg
          then time.mul (time.Duration (KeepAliveTimeout cfg)) time.Second else 0)
    /\ http.disableKeepAlives s = negb (0 <? KeepAliveTimeout cfg).
Proof.
  unfold start, startServer.
  destruct (reuseport_Listen (Network cfg) (Bind cfg)) as [l0|e]; [|discriminate].
  intros Heq. injection Heq as <- <-. exists l0.
  destruct (0 <? KeepAliveTimeout cfg); repeat split.
Qed.

(** X16.  [startServer] fails exactly when the listener cannot be bound,
    and its error is then "Can't start server: " followed by the text of
    the listener's error. *)
Lemma startServer_inr (msg : string) :
  start = inr msg <->
  exists e, reuseport_Listen (Network cfg) (Bind cfg) = inr e
            /\ msg = "Can't start server: " +:+ error_message e.
Proof.
  unfold start, startServer.
  destruct (reuseport_Listen (Network cfg) (Bind cfg)) as [l0|e]; split.
  - discriminate.
  - intros (e & He & _). discriminate.
  - intros Heq. injection Heq as <-. eauto.
  - intros (e' & He & ->). injection He as ->. reflexivity.
Qed.

End StartServer.

(** Seconds that fit an [int64] of nanoseconds are converted exactly. *)
Lemma seconds_exact (k : Z) :
  -9223372036 <= k <= 9223372036 ->
  time.mul (time.Duration k) time.Second = k * 1000000000.
Proof.
  intros Hk. unfold time.mul, time.Duration, time.Second, wrap64.
  rewrite (Z.mod_small (k + 2 ^ 63)) by lia.
  replace (k + 2 ^ 63 - 2 ^ 63) with k by lia.
  rewrite Z.mod_small by lia. lia.
Qed.

(** C10.  Every server [startServer] creates has a maximum request-header
    size of 2^20 bytes (1 MiB), whatever the configuration says. *)
Theorem startServer_MaxHeaderBytes
    (cfg : Config) (handleLanding handleProcessing : RouteHandler)
    (vips_Health : option error)
    (reuseport_Listen : string -> string -> Listener + error)
    (s : http.Server) (l : Listener) :
  startServer cfg handleLanding handleProcessing vips_Health reuseport_Listen
    = inl (s, l) ->
  http.MaxHeaderBytes s = 2 ^ 20 /\ http.MaxHeaderBytes s = 1048576.
Proof.
  intros Hstart. apply startServer_inl in Hstart as (l0 & _ & _ & _ & -> & _).
  split; reflexivity.
Qed.

Lemma startServer_MaxHeaderBytes_witness :
  exists s l,
    startServer Sample.cfg Sample.idle Sample.idle None Sample.listen = inl (s, l)
    /\ http.MaxHeaderBytes s = 2 ^ 20 /\ http.MaxHeaderBytes s = 1048576.
Proof.
  eexists; eexists. split; [reflexivity|].
  apply (startServer_MaxHeaderBytes Sample.cfg Sample.idle Sample.idle None
           Sample.listen _ (Bound "tcp" ":8080")).
  reflexivity.
Defined.

(** C7 (as amended).  On every server [startServer] creates, the read
    timeout is [time.Duration(ReadRequestTimeout) * time.Second]; when the
    keep-alive timeout [k] is greater than zero, keep-alives stay enabled
    and the idle timeout is [time.Duration(k) * time.Second] in [int64]
    nanoseconds, which is exactly [k] seconds for [k <= 9223372036]; when
    [k] is zero or negative, keep-alives are disabled and the idle timeout
    is left at zero. *)
Theorem startServer_timeouts
    (cfg : Config) (handleLanding handleProcessing : RouteHandler)
    (vips_Health : option error)
    (reuseport_Listen : string -> string -> Listener + error)
    (s : http.Server) (l : Listener) :
  startServer cfg handleLanding handleProcessing vips_Health reuseport_Listen
    = inl (s, l) ->
  http.ReadTimeout s
    = time.mul (time.Duration (ReadRequestTimeout cfg)) time.Second
  /\ (0 < KeepAliveTimeout cfg ->
      http.IdleTimeout s
        = time.mul (time.Duration (KeepAliveTimeout cfg)) time.Second
      /\ http.disableKeepAlives s = false)
  /\ (0 < KeepAliveTimeout cfg <= 9223372036 ->
      http.IdleTimeout s = KeepAliveTimeout cfg * 1000000000)
  /\ (KeepAliveTimeout cfg <= 0 ->
      http.disableKeepAlives s = true /\ http.IdleTimeout s = 0).
Proof.
  intros Hstart.
  apply startServer_inl in Hstart as (l0 & _ & _ & Hread & _ & Hidle & Hkeep).
  split; [exact Hread|].
  destruct (0 <? KeepAliveTimeout cfg) eqn:Hpos.
  - apply Z.ltb_lt in Hpos. repeat split; try assumption; try lia.
    intros Hk. rewrite Hidle. apply seconds_exact. lia.
  - apply Z.ltb_ge in Hpos. repeat split; try assumption; lia.
Qed.

Lemma startServer_timeouts_witness :
  exists s l,
    startServer Sample.cfg Sample.idle Sample.idle None Sample.listen = inl (s, l)
    /\ http.ReadTimeout s = 10000000000
    /\ http.IdleTimeout s = 10000000000
    /\ http.disableKeepAlives s = false.
Proof.
  eexists; eexists. split; [reflexivity|].
  destruct (startServer_timeouts Sample.cfg Sample.idle Sample.idle None
              Sample.listen _ (Bound "tcp" ":8080") eq_refl)
    as (Hread & Hpos & Hexact & _).
  split; [exact Hread|].
  split; [apply Hexact; simpl; lia|].
  apply Hpos. simpl. lia.
Defined.

(** C7 as first stated fails: with a keep-alive timeout of 9223372037
    seconds, which is greater than zero, the product overflows [int64] and
    the idle timeout of the server is negative, not that many seconds. *)
Lemma startServer_keepalive_overflow :
  exists s l,
    startServer Sample.long_keepalive Sample.idle Sample.idle None Sample.listen
      = inl (s, l)
    /\ 0 < KeepAliveTimeout Sample.long_keepalive
    /\ http.disableKeepAlives s = false
    /\ http.IdleTimeout s = -9223372036709551616
    /\ http.IdleTimeout s <> KeepAliveTimeout Sample.long_keepalive * time.Second.
Proof.
  eexists; eexists. split; [reflexivity|].
  repeat split; try reflexivity. discriminate.
Qed.

(** ** The health probe *)

Lemma nonempty_body_spec (msg : string) :
  nonempty_body msg <> ""
  /\ (len msg = 0 -> nonempty_body msg = " ")
  /\ (len msg <> 0 -> nonempty_body msg = msg).
Proof.
  unfold nonempty_body, len. destruct msg as [|a msg]; simpl.
  - repeat split; [discriminate|lia].
  - repeat split; [discriminate|lia].
Qed.

(** C4.  When the engine's health check succeeds the handler writes
    status 200 with the body "imgproxy is running" and logs nothing; when
    it fails with [err] the handler logs one response line carrying the
    wrapped failure and writes status 500 with the body "Error".  Either
    way Content-Type: text/plain and Cache-Control: no-cache are set
    before the status is sent, and the body written is never empty: an
    empty body would be replaced by a single space. *)
Theorem handleHealth_spec (reqID : string) (r : Request) :
  handleHealth None reqID r
    = ([HeaderSet "Content-Type" "text/plain";
        HeaderSet "Cache-Control" "no-cache";
        WriteHeader 200;
        Write "imgproxy is running"], Returned tt)
  /\ (forall err,
        handleHealth (Some err) reqID r
          = ([LogResponse reqID 500 (Some (ierrors.Wrap err 1 []));
              HeaderSet "Content-Type" "text/plain";
              HeaderSet "Cache-Control" "no-cache";
              WriteHeader 500;
              Write "Error"], Returned tt))
  /\ (forall health,
        let t := trace (handleHealth health reqID r) in
        calls is_LogResponse t = (if bool_decide (health = None) then 0%nat else 1%nat)
        /\ calls is_WriteHeader t = 1%nat
        /\ calls is_Write t = 1%nat
        /\ response_status t = Some (if bool_decide (health = None) then 200 else 500)
        /\ response_header t "Content-Type" = Some ["text/plain"]
        /\ response_header t "Cache-Control" = Some ["no-cache"]
        /\ response_body t
           = (if bool_decide (health = None) then "imgproxy is running" else "Error")
        /\ response_body t <> "")
  /\ (forall msg, nonempty_body msg <> ""
                  /\ (len msg = 0 -> nonempty_body msg = " ")).
Proof.
  split; [reflexivity|]. split; [reflexivity|]. split.
  - intros [err|]; cbv zeta; repeat split; try reflexivity; discriminate.
  - intros msg. pose proof (nonempty_body_spec msg). tauto.
Qed.

(** ** The middleware wrappers, one by one *)

Lemma reraised_dec (v : value) : {reraised v} + {~ reraised v}.
Proof.
  destruct v as [e|repr].
  - destruct e; try (right; intros [H|[x H]]; discriminate).
    left; left; reflexivity.
  - left; right; eauto.
Defined.

Lemma M_eta {A : Type} (m : M A) : m = (trace m, result m).
Proof. now destruct m. Qed.

Lemma withCORS_run (cfg : Config) (h : RouteHandler) (reqID : string) (r : Request) :
  withCORS cfg h reqID r
  = (cors_headers cfg ++ trace (h reqID r), result (h reqID r)).
Proof.
  unfold withCORS, cors_headers.
  destruct (h reqID r) as [t o].
  destruct (0 <? len (AllowOrigin cfg)); destruct o; reflexivity.
Qed.

Lemma withSecret_unset (cfg : Config) (h : RouteHandler) :
  len (Secret cfg) = 0 -> withSecret cfg h = h.
Proof. intros Hlen. unfold withSecret. now rewrite Hlen. Qed.

Lemma withSecret_run (cfg : Config) (h : RouteHandler) (reqID : string) (r : Request) :
  withSecret cfg h reqID r
  = if (len (Secret cfg) =? 0) || authorized cfg r
    then h reqID r
    else panic (VError newInvalidSecretError).
Proof.
  unfold withSecret, authorized.
  destruct (len (Secret cfg) =? 0); [reflexivity|].
  now rewrite ConstantTimeCompare_strings.
Qed.

(** A status code net/http accepts never makes [rw.WriteHeader] panic,
    whatever was sent before; [handleHealth] and [handleHead], whose
    codes are 200 and 500, record the call directly. *)
Lemma rw_WriteHeader_valid (t : list event) (status : Z) :
  valid_status status = true -> rw_WriteHeader t status = emit (WriteHeader status).
Proof.
  intros Hvalid. unfold rw_WriteHeader, accepted. rewrite Hvalid.
  now rewrite orb_true_r.
Qed.

Lemma not_ErrAbortHandler (err : error) :
  err <> ErrAbortHandler -> is_ErrAbortHandler (VError err) = false.
Proof. intros Hne. destruct err; try reflexivity. contradiction. Qed.

(** The deferred function on an error whose status line goes through. *)
Lemma recovered_error (cfg : Config) (reqID : string) (t : list event) (err : error) :
  err <> ErrAbortHandler ->
  accepted t (ierrors.StatusCode (ierrors.Wrap err 0 [])) = true ->
  recovered cfg reqID t (VError err) = (rendering cfg reqID err, Returned tt).
Proof.
  intros Hne Hacc. unfold recovered. rewrite (not_ErrAbortHandler err Hne).
  cbn [as_error]. cbv zeta. unfold rw_WriteHeader. rewrite Hacc.
  unfold rendering, error_body.
  destruct (ierrors.ShouldReport (ierrors.Wrap err 0 [])),
    (DevelopmentErrorsMode cfg); reflexivity.
Qed.

(** The deferred function on an error whose status code is refused. *)
Lemma recovered_refused (cfg : Config) (reqID : string) (t : list event) (err : error) :
  err <> ErrAbortHandler ->
  accepted t (ierrors.StatusCode (ierrors.Wrap err 0 [])) = false ->
  recovered cfg reqID t (VError err)
  = (announced reqID err,
     Panicked (invalid_code (ierrors.StatusCode (ierrors.Wrap err 0 [])))).
Proof.
  intros Hne Hacc. unfold recovered. rewrite (not_ErrAbortHandler err Hne).
  cbn [as_error]. cbv zeta. unfold rw_WriteHeader. rewrite Hacc.
  unfold announced.
  destruct (ierrors.ShouldReport (ierrors.Wrap err 0 [])); reflexivity.
Qed.

Lemma recovered_reraised (cfg : Config) (reqID : string) (t : list event) (v : value) :
  reraised v -> recovered cfg reqID t v = panic v.
Proof. intros [->|[repr ->]]; reflexivity. Qed.

Lemma not_reraised_error (v : value) :
  ~ reraised v -> exists err, v = VError err /\ err <> ErrAbortHandler.
Proof.
  intros Hn. destruct v as [e|repr].
  - exists e. split; [reflexivity|]. intros ->. apply Hn. now left.
  - destruct Hn. right. eauto.
Qed.

Lemma withPanicHandler_run (cfg : Config) (h : RouteHandler) (reqID : string)
    (r : Request) :
  withPanicHandler cfg h reqID r
  = let inner := h reqID (WithContext r "errorreport") in
    let before := [ReportStartRequest; SetMetadata "Request ID" reqID] ++ trace inner in
    match result inner with
    | Returned a => (before, Returned a)
    | Panicked v => (before ++ trace (recovered cfg reqID (trace inner) v),
                     result (recovered cfg reqID (trace inner) v))
    end.
Proof.
  unfold withPanicHandler. cbv zeta.
  destruct (h reqID (WithContext r "errorreport")) as [t [a|v]]; simpl.
  - reflexivity.
  - destruct (recovered cfg reqID t v) as [t' [a'|v']]; reflexivity.
Qed.

Lemma withMetrics_disabled (cfg : Config) (h : RouteHandler) :
  MetricsEnabled cfg = false -> withMetrics cfg h = h.
Proof. intros Hoff. unfold withMetrics. now rewrite Hoff. Qed.

Lemma withMetrics_enabled (cfg : Config) (h : RouteHandler) (reqID : string)
    (r : Request) :
  MetricsEnabled cfg = true ->
  withMetrics cfg h reqID r
  = ([MetricsStartRequest] ++ trace (h reqID (WithContext r "metrics"))
       ++ [MetricsCancel],
     result (h reqID (WithContext r "metrics"))).
Proof.
  intros Hon. unfold withMetrics. rewrite Hon. simpl.
  destruct (h reqID (WithContext r "metrics")) as [t [a|v]]; reflexivity.
Qed.

(** ** HEAD and OPTIONS *)

(** C8.  The only routes registered for HEAD and OPTIONS are the two for
    "/", both handled by [handleHead] wrapped in the CORS wrapper alone.
    That handler sets the CORS headers (when an origin is configured),
    logs the response and sends status 200; it never writes a body, never
    panics, involves neither metrics nor the error reporter, and does the
    same whatever shared secret is configured. *)
Theorem head_options_responder
    (cfg : Config) (handleLanding handleProcessing : RouteHandler)
    (vips_Health : option error) (reqID : string) (r : Request) :
  routes_for ["HEAD"; "OPTIONS"]
    (buildRouter cfg handleLanding handleProcessing vips_Health)
    = [router.mkRoute "HEAD" "/" (withCORS cfg handleHead) false;
       router.mkRoute "OPTIONS" "/" (withCORS cfg handleHead) false]
  /\ withCORS cfg handleHead reqID r
     = (cors_headers cfg ++ [LogResponse reqID 200 None; WriteHeader 200],
        Returned tt)
  /\ response_status (trace (withCORS cfg handleHead reqID r)) = Some 200
  /\ response_body (trace (withCORS cfg handleHead reqID r)) = ""
  /\ calls is_Write (trace (withCORS cfg handleHead reqID r)) = 0%nat
  /\ (forall secret,
        withCORS (with_Secret cfg secret) handleHead reqID r
        = withCORS cfg handleHead reqID r).
Proof.
  split; [reflexivity|].
  rewrite withCORS_run. simpl.
  split; [reflexivity|].
  unfold cors_headers.
  destruct (0 <? len (AllowOrigin cfg)) eqn:Horigin;
    (split; [reflexivity|]); (split; [reflexivity|]); (split; [reflexivity|]);
    intros secret; rewrite withCORS_run; unfold cors_headers; simpl;
    rewrite Horigin; reflexivity.
Qed.

(** ** Secret authentication *)

(** C3.  Without a configured secret the wrapper is the identity.  With
    one, a request whose Authorization header equals "Bearer <secret>"
    byte for byte is handed to the inner handler, and any other request
    makes the wrapper panic with the invalid-secret failure, whose status
    is 403, whose public message is "Forbidden" and which is not
    reported; the inner handler is then not run. *)
Theorem withSecret_spec (cfg : Config) (h : RouteHandler) (reqID : string)
    (r : Request) :
  (len (Secret cfg) = 0 -> withSecret cfg h = h)
  /\ (len (Secret cfg) <> 0 ->
      (subtle.ConstantTimeCompare
         (bytes (Header_Get (Header r) "Authorization"))
         (bytes ("Bearer " +:+ Secret cfg)) = 1
       <-> Header_Get (Header r) "Authorization" = "Bearer " +:+ Secret cfg)
      /\ (Header_Get (Header r) "Authorization" = "Bearer " +:+ Secret cfg ->
          withSecret cfg h reqID r = h reqID r)
      /\ (Header_Get (Header r) "Authorization" <> "Bearer " +:+ Secret cfg ->
          withSecret cfg h reqID r = ([], Panicked (VError newInvalidSecretError))))
  /\ (exists e, newInvalidSecretError = IError e
                /\ ierrors.Wrap newInvalidSecretError 0 [] = e
                /\ ierrors.StatusCode e = 403
                /\ ierrors.PublicMessage e = "Forbidden"
                /\ ierrors.ShouldReport e = false).
Proof.
  split; [apply withSecret_unset|]. split.
  - intros Hset. apply Z.eqb_neq in Hset.
    split; [|split].
    + pose proof (ConstantTimeCompare_strings
                    (Header_Get (Header r) "Authorization")
                    ("Bearer " +:+ Secret cfg)) as Hcmp.
      rewrite <- String.eqb_eq, <- Hcmp. symmetry. apply Z.eqb_eq.
    + intros Hauth. rewrite withSecret_run. unfold authorized.
      rewrite Hauth, String.eqb_refl, orb_true_r. reflexivity.
    + intros Hauth. rewrite withSecret_run. unfold authorized.
      apply String.eqb_neq in Hauth. rewrite Hset, Hauth. reflexivity.
  - eexists. split; [reflexivity|]. repeat split.
Qed.

(** ** Traces and the response they produce *)



Lemma response_of_app (t1 t2 : list event) :
  response_of (t1 ++ t2) = fold_left writer_step t2 (response_of t1).
Proof. unfold response_of. apply fold_left_app. Qed.

(** A trace that writes nothing leaves the status line unsent and the
    body as it was. *)
Lemma writer_quiet (t : list event) (w : Writer) :
  wrote_nothing t = true ->
  sent (fold_left writer_step t w) = sent w
  /\ written (fold_left writer_step t w) = written w.
Proof.
  unfold wrote_nothing. revert w. induction t as [|e t IH]; intros w; simpl; [auto|].
  intros Hq. apply andb_prop in Hq as [He Ht].
  destruct (IH (writer_step w e) Ht) as [-> ->].
  destruct e; simpl in *; try discriminate; auto.
Qed.

Lemma rendering_calls (cfg : Config) (reqID : string) (err : error) :
  calls is_WriteHeader (rendering cfg reqID err) = 1%nat
  /\ calls is_Write (rendering cfg reqID err) = 1%nat
  /\ calls is_LogResponse (rendering cfg reqID err) = 1%nat
  /\ calls is_Report (rendering cfg reqID err)
     = (if ierrors.ShouldReport (ierrors.Wrap err 0 []) then 1%nat else 0%nat).
Proof.
  unfold rendering.
  destruct (ierrors.ShouldReport (ierrors.Wrap err 0 [])); repeat split.
Qed.

Lemma announced_calls (reqID : string) (err : error) :
  calls is_WriteHeader (announced reqID err) = 1%nat
  /\ calls is_Write (announced reqID err) = 0%nat
  /\ calls is_LogResponse (announced reqID err) = 1%nat
  /\ calls is_Report (announced reqID err)
     = (if ierrors.ShouldReport (ierrors.Wrap err 0 []) then 1%nat else 0%nat).
Proof.
  unfold announced.
  destruct (ierrors.ShouldReport (ierrors.Wrap err 0 [])); repeat split.
Qed.




(** Whether and with which status a status line is sent does not depend
    on the headers and the body of the writer the calls start from. *)
Lemma status_sim (t : list event) (w w' : Writer) :
  fst <$> sent w = fst <$> sent w' ->
  fst <$> sent (fold_left writer_step t w)
  = fst <$> sent (fold_left writer_step t w').
Proof.
  revert w w'. induction t as [|e t IH]; intros w w' Hsim; simpl; [exact Hsim|].
  apply IH. destruct e; simpl; try exact Hsim.
  - destruct (sent w) as [p|] eqn:Hw, (sent w') as [p'|] eqn:Hw';
      simpl in *; try discriminate.
    + now rewrite Hw, Hw'.
    + destruct (valid_status status && negb (informational status)); simpl;
        [reflexivity | now rewrite Hw, Hw'].
  - destruct (sent w) as [p|] eqn:Hw, (sent w') as [p'|] eqn:Hw';
      simpl in *; try discriminate; [|reflexivity].
    injection Hsim as Hp. rewrite Hp.
    destruct (body_allowed (fst p')); simpl; rewrite ?Hw, ?Hw'; simpl; now rewrite Hp.
Qed.

(** Calls that write nothing, made first, do not change whether a status
    line is sent by the calls that follow. *)
Lemma header_sent_quiet_prefix (t0 t : list event) :
  wrote_nothing t0 = true -> header_sent (t0 ++ t) = header_sent t.
Proof.
  intros Hquiet. unfold header_sent. rewrite response_of_app.
  assert (Hsim : fst <$> sent (fold_left writer_step t (response_of t0))
                 = fst <$> sent (response_of t)).
  { apply status_sim. unfold response_of at 1.
    destruct (writer_quiet t0 new_writer Hquiet) as [-> _]. reflexivity. }
  destruct (sent (fold_left writer_step t (response_of t0))),
    (sent (response_of t)); simpl in Hsim; try discriminate; reflexivity.
Qed.



(** ** Fault isolation *)

(** C2 (as amended).  A recognized failure is a value that is a Go error
    ([rerr.(error)] succeeds).  The wrapper lets the panic of the inner
    handler through exactly when the raised value is
    [http.ErrAbortHandler] or is not an error: the value escapes
    unchanged and nothing is added to what the inner handler had done.
    Every other raised value is intercepted once and rendered, with one
    status line and one body write, after which the wrapper returns,
    provided [rw.WriteHeader] goes through: a status line was already
    sent or the error's status code is within 100..999.  Otherwise
    [rw.WriteHeader] panics in the deferred function, no body is written
    and that panic, not the raised value, leaves the wrapper.  When the
    inner handler returns, so does the wrapper. *)
Theorem withPanicHandler_boundary (cfg : Config) (h : RouteHandler)
    (reqID : string) (r : Request) :
  let inner := h reqID (WithContext r "errorreport") in
  let outer := withPanicHandler cfg h reqID r in
  let before := [ReportStartRequest; SetMetadata "Request ID" reqID] ++ trace inner in
  (forall v, result outer = Panicked v
             <-> (result inner = Panicked v /\ reraised v)
                 \/ (exists err,
                       result inner = Panicked (VError err)
                       /\ err <> ErrAbortHandler
                       /\ accepted (trace inner)
                            (ierrors.StatusCode (ierrors.Wrap err 0 [])) = false
                       /\ v = invalid_code
                                (ierrors.StatusCode (ierrors.Wrap err 0 []))))
  /\ (forall v, result inner = Panicked v -> reraised v ->
        outer = (before, Panicked v))
  /\ (forall v, result inner = Panicked v -> ~ reraised v ->
        exists err, v = VError err
          /\ (accepted (trace inner)
                (ierrors.StatusCode (ierrors.Wrap err 0 [])) = true ->
              outer = (before ++ rendering cfg reqID err, Returned tt)
              /\ calls is_WriteHeader (rendering cfg reqID err) = 1%nat
              /\ calls is_Write (rendering cfg reqID err) = 1%nat)
          /\ (accepted (trace inner)
                (ierrors.StatusCode (ierrors.Wrap err 0 [])) = false ->
              outer = (before ++ announced reqID err,
                       Panicked (invalid_code
                                   (ierrors.StatusCode (ierrors.Wrap err 0 []))))
              /\ calls is_WriteHeader (announced reqID err) = 1%nat
              /\ calls is_Write (announced reqID err) = 0%nat))
  /\ (forall a, result inner = Returned a -> outer = (before, Returned a)).
Proof.
  cbv zeta. rewrite withPanicHandler_run. cbv zeta.
  destruct (h reqID (WithContext r "errorreport")) as [t [a|v]]; simpl.
  - split; [|split; [|split]].
    + intros v. split; [discriminate|].
      intros [[H _]|(err & H & _)]; discriminate.
    + discriminate.
    + discriminate.
    + intros a' Ha. injection Ha as <-. reflexivity.
  - destruct (reraised_dec v) as [Hre|Hnot].
    + rewrite (recovered_reraised cfg reqID t v Hre). simpl. rewrite app_nil_r.
      split; [|split; [|split]].
      * intros v'. split.
        -- intros Hv. injection Hv as <-. auto.
        -- intros [[Hv _]|(err & Hv & Herr & _)]; [exact Hv|].
           injection Hv as ->. destruct Hre as [Hre|[x Hre]]; [|discriminate].
           injection Hre as ->. contradiction.
      * intros v' Hv _. injection Hv as <-. reflexivity.
      * intros v' Hv Hn. injection Hv as <-. contradiction.
      * discriminate.
    + destruct (not_reraised_error v Hnot) as (err & -> & Herr).
      destruct (accepted t (ierrors.StatusCode (ierrors.Wrap err 0 []))) eqn:Hacc.
      * rewrite (recovered_error cfg reqID t err Herr Hacc). simpl.
        split; [|split; [|split]].
        -- intros v'. split; [discriminate|].
           intros [[Hv Hre]|(err' & Hv & _ & Hacc' & _)].
           ++ injection Hv as <-. contradiction.
           ++ injection Hv as <-. congruence.
        -- intros v' Hv Hre. injection Hv as <-. contradiction.
        -- intros v' Hv _. injection Hv as <-. exists err.
           split; [reflexivity|]. rewrite Hacc. split; [|discriminate].
           intros _. pose proof (rendering_calls cfg reqID err). tauto.
        -- discriminate.
      * rewrite (recovered_refused cfg reqID t err Herr Hacc). simpl.
        split; [|split; [|split]].
        -- intros v'. split.
           ++ intros Hv. injection Hv as <-. right. exists err. auto.
           ++ intros [[Hv Hre]|(err' & Hv & _ & _ & ->)].
              ** injection Hv as <-. contradiction.
              ** injection Hv as <-. reflexivity.
        -- intros v' Hv Hre. injection Hv as <-. contradiction.
        -- intros v' Hv _. injection Hv as <-. exists err.
           split; [reflexivity|]. rewrite Hacc. split; [discriminate|].
           intros _. pose proof (announced_calls reqID err). tauto.
        -- discriminate.
Qed.

(** C2 as first stated fails: an inner handler that panics with the
    invalid-URL failure of status 99, a recognized error, is intercepted,
    but [rw.WriteHeader(99)] panics in the deferred function: no response
    is written and a panic reaches the caller of the wrapper. *)
Lemma withPanicHandler_refused_status :
  let inner := Faulty.fails_with_status_99 "req-1"
                 (WithContext (Sample.GET_root []) "errorreport") in
  let outer := withPanicHandler Sample.bare Faulty.fails_with_status_99 "req-1"
                 (Sample.GET_root []) in
  inner = ([], Panicked (VError (newInvalidURLErrorf 99 "bad request")))
  /\ as_error (VError (newInvalidURLErrorf 99 "bad request"))
     = Some (newInvalidURLErrorf 99 "bad request")
  /\ is_ErrAbortHandler (VError (newInvalidURLErrorf 99 "bad request")) = false
  /\ result outer = Panicked (VOther "invalid WriteHeader code 99")
  /\ calls is_Write (trace outer) = 0%nat
  /\ response_status (trace outer) = None
  /\ response_body (trace outer) = "".
Proof. cbv zeta. repeat split. Qed.




(** ** The main processing route *)

Lemma isolate_recovered (cfg : Config) (reqID : string) (t : list event) (v : value) :
  recovered cfg reqID t v = isolate cfg reqID t (Panicked v).
Proof.
  destruct v as [err|repr]; [|reflexivity].
  destruct err; try reflexivity; cbn [isolate]; cbv zeta;
    match goal with
    | |- _ = (if ?c then _ else _) => destruct c eqn:Hacc
    end;
    solve [ apply recovered_error; [discriminate | exact Hacc]
          | apply recovered_refused; [discriminate | exact Hacc] ].
Qed.

Lemma wrote_nothing_cors_headers (cfg : Config) : wrote_nothing (cors_headers cfg) = true.
Proof. unfold cors_headers. now destruct (0 <? len (AllowOrigin cfg)). Qed.

(** Fault isolation does not depend on calls that wrote nothing. *)
Lemma isolate_quiet_prefix (cfg : Config) (reqID : string) (t0 t : list event)
    (o : outcome unit) :
  wrote_nothing t0 = true ->
  isolate cfg reqID (t0 ++ t) o = isolate cfg reqID t o.
Proof.
  intros Hquiet. destruct o as [a|[err|repr]]; try reflexivity.
  destruct err; try reflexivity; simpl; unfold accepted;
    now rewrite header_sent_quiet_prefix.
Qed.

Lemma isolated_layers (cfg : Config) (business : RouteHandler) (reqID : string)
    (r : Request) :
  withPanicHandler cfg (withCORS cfg (withSecret cfg business)) reqID r
  = let r := WithContext r "errorreport" in
    let inner := if (len (Secret cfg) =? 0) || authorized cfg r
                 then business reqID r
                 else panic (VError newInvalidSecretError) in
    let handled := isolate cfg reqID (trace inner) (result inner) in
    ([ReportStartRequest; SetMetadata "Request ID" reqID]
       ++ cors_headers cfg ++ trace inner ++ trace handled,
     result handled).
Proof.
  rewrite withPanicHandler_run. cbv zeta.
  rewrite withCORS_run, withSecret_run. simpl.
  set (inner := if (len (Secret cfg) =? 0) || authorized cfg (WithContext r "errorreport")
                then business reqID (WithContext r "errorreport")
                else panic (VError newInvalidSecretError)).
  destruct inner as [t [a|v]]; simpl.
  - now rewrite app_nil_r.
  - rewrite isolate_recovered.
    rewrite isolate_quiet_prefix by apply wrote_nothing_cors_headers.
    now rewrite <- app_assoc.
Qed.

(** C6.  The table holds one route for the processing handler, the
    prefix route GET "/", and its handler is the business handler wrapped
    by secret authentication, then CORS, then fault isolation, then
    metrics.  Serving a request through it does what the layers do in
    that order, from the outside in: metrics, fault isolation, CORS,
    secret authentication, business handler. *)
Theorem main_route_layers
    (cfg : Config) (handleLanding handleProcessing : RouteHandler)
    (vips_Health : option error) (reqID : string) (r : Request) :
  let main :=
    withMetrics cfg (withPanicHandler cfg (withCORS cfg (withSecret cfg handleProcessing))) in
  List.filter (fun rt => negb (router.Exact rt))
    (routes_for ["GET"] (buildRouter cfg handleLanding handleProcessing vips_Health))
    = [router.mkRoute "GET" "/" main false]
  /\ main reqID r = layered cfg handleProcessing reqID r.
Proof.
  cbv zeta. split; [reflexivity|].
  unfold layered. cbv zeta.
  destruct (MetricsEnabled cfg) eqn:Hmetrics.
  - rewrite withMetrics_enabled by exact Hmetrics.
    rewrite isolated_layers. cbv zeta. simpl.
    now rewrite <- !app_assoc.
  - rewrite withMetrics_disabled by exact Hmetrics.
    rewrite isolated_layers. cbv zeta. simpl.
    now rewrite !app_nil_r.
Qed.

(** ** Worked requests *)

(** An unauthorised request on the main route, with metrics, an allowed
    origin and a secret configured: the span is opened first and closed
    last, the CORS headers are set before the secret is checked, and the
    invalid-secret panic is rendered by the fault-isolation layer as
    403 Forbidden without a report. *)
Example unauthorised_request :
  withMetrics Sample.cfg
    (withPanicHandler Sample.cfg
       (withCORS Sample.cfg (withSecret Sample.cfg Sample.idle)))
    "req-1" (Sample.GET_root ["Bearer wrong"])
  = ([MetricsStartRequest;
      ReportStartRequest; SetMetadata "Request ID" "req-1";
      HeaderSet "Access-Control-Allow-Origin" "*";
      HeaderSet "Access-Control-Allow-Methods" "GET, OPTIONS";
      LogResponse "req-1" 403
        (Some (mkError InvalidSecretError (Some 403) (Some "Forbidden") false));
      HeaderSet "Content-Type" "text/plain";
      WriteHeader 403;
      Write "Forbidden";
      MetricsCancel], Returned tt).
Proof. reflexivity. Qed.

Example authorised_request :
  withMetrics Sample.cfg
    (withPanicHandler Sample.cfg
       (withCORS Sample.cfg (withSecret Sample.cfg handleHead)))
    "req-1" (Sample.GET_root ["Bearer s3cret"])
  = ([MetricsStartRequest;
      ReportStartRequest; SetMetadata "Request ID" "req-1";
      HeaderSet "Access-Control-Allow-Origin" "*";
      HeaderSet "Access-Control-Allow-Methods" "GET, OPTIONS";
      LogResponse "req-1" 200 None;
      WriteHeader 200;
      MetricsCancel], Returned tt).
Proof. reflexivity. Qed.

(** Header values that are not the expected one: wrong case, truncated,
    a missing "Bearer " and no header at all. *)
Example rejected_headers :
  Forall (fun auth =>
            withSecret Sample.cfg Sample.idle "req-1" (Sample.GET_root auth)
            = ([], Panicked (VError newInvalidSecretError)))
         [["bearer s3cret"]; ["Bearer s3cre"]; ["Bearer S3cret"]; ["s3cret"];
          ["Bearer s3cret "]; [""]; []].
Proof. repeat constructor. Qed.

(** With secret authentication outside the fault-isolation layer the
    invalid-secret panic would escape instead of being rendered. *)
Example secret_outside_isolation :
  result (withSecret Sample.cfg (withPanicHandler Sample.cfg Sample.idle)
            "req-1" (Sample.GET_root []))
  = Panicked (VError newInvalidSecretError).
Proof. reflexivity. Qed.

(** The peer-abort signal and a non-error value pass through untouched. *)
Example abort_passes_through :
  withPanicHandler Sample.bare (fun _ _ => panic (VError ErrAbortHandler))
    "req-1" (Sample.GET_root [])
  = ([ReportStartRequest; SetMetadata "Request ID" "req-1"],
     Panicked (VError ErrAbortHandler)).
Proof. reflexivity. Qed.

Example non_error_passes_through :
  withPanicHandler Sample.bare (fun _ _ => panic (VOther "index out of range"))
    "req-1" (Sample.GET_root [])
  = ([ReportStartRequest; SetMetadata "Request ID" "req-1"],
     Panicked (VOther "index out of range")).
Proof. reflexivity. Qed.

(** ** The listener *)

(** X15.  [startServer] succeeds exactly when the listener is bound, and
    the listener handed to [Serve] is then the bound one wrapped by
    [netutil.LimitListener] with limit [MaxClients] when that limit is
    greater than zero, and the bound one itself when the limit is zero or
    negative. *)
Lemma startServer_listener
    (cfg : Config) (handleLanding handleProcessing : RouteHandler)
    (vips_Health : option error)
    (reuseport_Listen : string -> string -> Listener + error) :
  match startServer cfg handleLanding handleProcessing vips_Health reuseport_Listen,
        reuseport_Listen (Network cfg) (Bind cfg) with
  | inl (_, l), inl l0 =>
      if 0 <? MaxClients cfg then l = LimitListener l0 (MaxClients cfg) else l = l0
  | inr _, inr _ => True
  | _, _ => False
  end.
Proof.
  unfold startServer.
  destruct (reuseport_Listen (Network cfg) (Bind cfg)) as [l0|e]; [|exact I].
  destruct (0 <? MaxClients cfg); reflexivity.
Qed.

(* ===================================================================== *)
(** * Further properties of server.go and errors.go                      *)
(* ===================================================================== *)

(** ** Server set-up, continued *)

(** X1.  On every server [startServer] creates, a read-request timeout
    between -9223372036 and 9223372036 seconds becomes a read timeout of
    exactly that many seconds, in nanoseconds; in particular a timeout of
    zero leaves the read timeout at zero. *)
Theorem startServer_ReadTimeout_exact
    (cfg : Config) (handleLanding handleProcessing : RouteHandler)
    (vips_Health : option error)
    (reuseport_Listen : string -> string -> Listener + error)
    (s : http.Server) (l : Listener) :
  startServer cfg handleLanding handleProcessing vips_Health reuseport_Listen
    = inl (s, l) ->
  -9223372036 <= ReadRequestTimeout cfg <= 9223372036 ->
  http.ReadTimeout s = ReadRequestTimeout cfg * 1000000000
  /\ (ReadRequestTimeout cfg = 0 -> http.ReadTimeout s = 0).
Proof.
  intros Hstart Hrange.
  apply startServer_inl in Hstart as (l0 & _ & _ & Hread & _).
  rewrite Hread, seconds_exact by exact Hrange.
  split; [reflexivity|]. intros ->. reflexivity.
Qed.

Lemma startServer_ReadTimeout_exact_witness :
  exists s l,
    startServer Sample.cfg Sample.idle Sample.idle None Sample.listen = inl (s, l)
    /\ http.ReadTimeout s = 10 * 1000000000.
Proof.
  eexists; eexists. split; [reflexivity|].
  apply (startServer_ReadTimeout_exact Sample.cfg Sample.idle Sample.idle None
           Sample.listen _ (Bound "tcp" ":8080") eq_refl).
  simpl. lia.
Defined.

(** X2.  The server [startServer] creates serves the route table of
    [buildRouter], and neither its timeouts, its header limit nor its
    keep-alive switch depend on the connection limit, the bind address or
    the listener that was bound: two configurations that agree on the two
    timeouts give servers that agree on those fields. *)
Theorem startServer_server_fields
    (cfg cfg' : Config) (handleLanding handleProcessing : RouteHandler)
    (vips_Health : option error)
    (listen listen' : string -> string -> Listener + error)
    (s s' : http.Server) (l l' : Listener) :
  startServer cfg handleLanding handleProcessing vips_Health listen = inl (s, l) ->
  startServer cfg' handleLanding handleProcessing vips_Health listen' = inl (s', l') ->
  ReadRequestTimeout cfg = ReadRequestTimeout cfg' ->
  KeepAliveTimeout cfg = KeepAliveTimeout cfg' ->
  http.ServerHandler s = buildRouter cfg handleLanding handleProcessing vips_Health
  /\ http.ReadTimeout s = http.ReadTimeout s'
  /\ http.IdleTimeout s = http.IdleTimeout s'
  /\ http.MaxHeaderBytes s = http.MaxHeaderBytes s'
  /\ http.disableKeepAlives s = http.disableKeepAlives s'.
Proof.
  intros Hs Hs' Hread Hkeep.
  assert (Hhandler : http.ServerHandler s
                     = buildRouter cfg handleLanding handleProcessing vips_Health).
  { revert Hs. unfold startServer.
    destruct (listen (Network cfg) (Bind cfg)); [|discriminate].
    intros Heq. injection Heq as <- _.
    destruct (0 <? KeepAliveTimeout cfg); reflexivity. }
  apply startServer_inl in Hs as (l0 & _ & _ & -> & -> & -> & ->).
  apply startServer_inl in Hs' as (l0' & _ & _ & -> & -> & -> & ->).
  rewrite Hread, Hkeep. repeat split. exact Hhandler.
Qed.

Lemma startServer_server_fields_witness :
  exists s s' l l',
    startServer Sample.bare Sample.idle Sample.idle None Sample.listen = inl (s, l)
    /\ startServer (mkConfig "/img" "unix" "/tmp/imgproxy.sock" 64 10 0 "*" "key" true true)
         Sample.idle Sample.idle None Sample.listen = inl (s', l')
    /\ l <> l'
    /\ http.ReadTimeout s = http.ReadTimeout s'
    /\ http.disableKeepAlives s = http.disableKeepAlives s'.
Proof.
  do 4 eexists. split; [reflexivity|]. split; [reflexivity|].
  split; [discriminate|].
  destruct (startServer_server_fields Sample.bare
              (mkConfig "/img" "unix" "/tmp/imgproxy.sock" 64 10 0 "*" "key" true true)
              Sample.idle Sample.idle None Sample.listen Sample.listen
              _ _ _ _ eq_refl eq_refl eq_refl eq_refl)
    as (_ & Hread & _ & _ & Hkeep).
  split; [exact Hread | exact Hkeep].
Defined.

(** X3.  The goroutine that serves always announces the bind address
    first and calls [cancel] last, exactly once, whatever [Serve]
    returned; it logs an error exactly when [Serve] returned an error
    other than [http.ErrServerClosed], and then logs that error's text. *)
Theorem serving_cancels (cfg : Config) (served : option serve_error) :
  head (serving cfg served) = Some (LogInfo ("Starting server at " +:+ Bind cfg))
  /\ last (serving cfg served) = Some Cancel
  /\ length (List.filter (fun e => match e with Cancel => true | _ => false end)
               (serving cfg served)) = 1%nat
  /\ (forall msg, LogError msg ∈ serving cfg served
                  <-> exists err, served = Some (ServeFailed err)
                                  /\ msg = error_message err).
Proof.
  unfold serving.
  destruct served as [[|err]|]; simpl;
    (split; [reflexivity|]); (split; [reflexivity|]); (split; [reflexivity|]);
    intros msg; rewrite ?elem_of_cons, elem_of_nil; split.
  - intros [H|[H|[]]]; discriminate.
  - intros (e & He & _). discriminate.
  - intros [H|[H|[H|[]]]]; try discriminate. injection H as ->. eauto.
  - intros (e & He & ->). injection He as <-. auto.
  - intros [H|[H|[]]]; discriminate.
  - intros (e & He & _). discriminate.
Qed.

(** ** Metrics and CORS *)

(** X4.  With metrics enabled the wrapper opens the span before the inner
    handler runs and closes it after, once each, on every exit path: the
    inner handler sees the request with the metrics context, and its
    outcome, a return or a panic with its value, is passed on unchanged.
    With metrics disabled the wrapper adds nothing at all. *)
Theorem withMetrics_bracket (cfg : Config) (h : RouteHandler) (reqID : string)
    (r : Request) :
  let outer := withMetrics cfg h reqID r in
  let inner := h reqID (if MetricsEnabled cfg then WithContext r "metrics" else r) in
  result outer = result inner
  /\ trace outer
     = (if MetricsEnabled cfg then [MetricsStartRequest] else [])
         ++ trace inner
         ++ (if MetricsEnabled cfg then [MetricsCancel] else []).
Proof.
  cbv zeta. destruct (MetricsEnabled cfg) eqn:Hmetrics.
  - rewrite withMetrics_enabled by exact Hmetrics. split; reflexivity.
  - rewrite withMetrics_disabled by exact Hmetrics.
    split; [reflexivity|]. simpl. now rewrite app_nil_r.
Qed.

(** X5.  Without an allowed origin the CORS wrapper runs the inner
    handler and nothing else: no header is set. *)
Theorem withCORS_unconfigured (cfg : Config) (h : RouteHandler) (reqID : string)
    (r : Request) :
  len (AllowOrigin cfg) = 0 -> withCORS cfg h reqID r = h reqID r.
Proof.
  intros Hnone. rewrite withCORS_run. unfold cors_headers. rewrite Hnone.
  simpl. symmetry. apply M_eta.
Qed.

Lemma withCORS_unconfigured_witness :
  withCORS Sample.bare Faulty.fails_late "req-1" (Sample.GET_root [])
  = Faulty.fails_late "req-1" (Sample.GET_root []).
Proof.
  apply (withCORS_unconfigured Sample.bare Faulty.fails_late "req-1"
           (Sample.GET_root [])).
  reflexivity.
Defined.

(** A header that is pending, and sent if anything was sent, stays so
    across a trace that does not set it. *)
Lemma header_kept (key : string) (v : list string) (t : list event) (w : Writer) :
  sets_header key t = false ->
  pending w !! key = Some v ->
  (forall p, sent w = Some p -> snd p !! key = Some v) ->
  pending (fold_left writer_step t w) !! key = Some v
  /\ (forall p, sent (fold_left writer_step t w) = Some p -> snd p !! key = Some v).
Proof.
  revert w. induction t as [|e t IH]; intros w Hset Hpending Hsent; simpl; [auto|].
  simpl in Hset. apply orb_false_elim in Hset as [He Ht].
  apply IH; [exact Ht| |].
  - destruct e; simpl; try exact Hpending.
    + apply String.eqb_neq in He. now rewrite lookup_insert_ne.
    + destruct (sent w); [exact Hpending|].
      now destruct (valid_status status && negb (informational status)).
    + destruct (sent w) as [p0|]; [|exact Hpending].
      now destruct (body_allowed (fst p0)).
  - destruct e; simpl; try exact Hsent.
    + destruct (sent w) as [p0|] eqn:Hw; simpl.
      * intros p Hp. apply Hsent. congruence.
      * destruct (valid_status status && negb (informational status)); simpl;
          intros p Hp.
        -- injection Hp as <-. exact Hpending.
        -- congruence.
    + destruct (sent w) as [p0|] eqn:Hw; simpl.
      * destruct (body_allowed (fst p0)); simpl; intros p Hp;
          apply Hsent; congruence.
      * intros p Hp. injection Hp as <-. exact Hpending.
Qed.

(** X6.  With an allowed origin configured, whenever a response is sent
    by an inner handler that does not set the two CORS headers itself,
    whatever its status and whether the handler returns or panics, the
    headers sent with it carry Access-Control-Allow-Origin with the
    configured origin and Access-Control-Allow-Methods: GET, OPTIONS. *)
Theorem withCORS_headers_sent (cfg : Config) (h : RouteHandler) (reqID : string)
    (r : Request) (status : Z) (headers : gmap string (list string)) :
  0 < len (AllowOrigin cfg) ->
  sets_header "Access-Control-Allow-Origin" (trace (h reqID r)) = false ->
  sets_header "Access-Control-Allow-Methods" (trace (h reqID r)) = false ->
  sent (response_of (trace (withCORS cfg h reqID r))) = Some (status, headers) ->
  headers !! "Access-Control-Allow-Origin" = Some [AllowOrigin cfg]
  /\ headers !! "Access-Control-Allow-Methods" = Some ["GET, OPTIONS"].
Proof.
  intros Horigin Hkeep1 Hkeep2. rewrite withCORS_run. unfold cors_headers.
  apply Z.ltb_lt in Horigin. rewrite Horigin.
  unfold response_of. simpl.
  set (w := mkWriter _ None ""). intros Hsent.
  assert (Ho : pending w !! "Access-Control-Allow-Origin" = Some [AllowOrigin cfg]).
  { simpl. rewrite lookup_insert_ne by discriminate. apply lookup_insert_eq. }
  assert (Hm : pending w !! "Access-Control-Allow-Methods" = Some ["GET, OPTIONS"]).
  { simpl. apply lookup_insert_eq. }
  assert (Hnone : forall (key : string) (v : list string) p,
                    sent w = Some p -> snd p !! key = Some v) by discriminate.
  destruct (header_kept _ _ _ w Hkeep1 Ho (Hnone _ _)) as [_ Horigin_sent].
  destruct (header_kept _ _ _ w Hkeep2 Hm (Hnone _ _)) as [_ Hmethods_sent].
  split.
  - exact (Horigin_sent _ Hsent).
  - exact (Hmethods_sent _ Hsent).
Qed.

Lemma withCORS_headers_sent_witness :
  exists headers,
    sent (response_of (trace (withCORS Sample.cfg Faulty.fails_late "req-1"
                                (Sample.GET_root []))))
    = Some (200, headers)
    /\ headers !! "Access-Control-Allow-Origin" = Some ["*"]
    /\ headers !! "Access-Control-Allow-Methods" = Some ["GET, OPTIONS"].
Proof.
  eexists. split; [reflexivity|].
  apply (withCORS_headers_sent Sample.cfg Faulty.fails_late "req-1"
           (Sample.GET_root []) 200); reflexivity.
Defined.

(** ** Secret authentication, continued *)

Lemma Bearer_nonempty (secret : string) : "" <> "Bearer " +:+ secret.
Proof. simpl. discriminate. Qed.

(** X7.  With a secret configured, a request without an Authorization
    header, or with an empty list of values for it, is rejected; and of
    several Authorization values only the first one counts: when it is
    "Bearer <secret>" the request is admitted whatever follows. *)
Theorem withSecret_header_values (cfg : Config) (h : RouteHandler)
    (reqID : string) (r : Request) :
  len (Secret cfg) <> 0 ->
  (Header r !! "Authorization" = None \/ Header r !! "Authorization" = Some [] ->
   withSecret cfg h reqID r = panic (VError newInvalidSecretError))
  /\ (forall rest,
        Header r !! "Authorization" = Some (("Bearer " +:+ Secret cfg) :: rest) ->
        withSecret cfg h reqID r = h reqID r).
Proof.
  intros Hset. apply Z.eqb_neq in Hset. split.
  - intros Hmissing. rewrite withSecret_run, Hset. unfold authorized, Header_Get.
    pose proof (Bearer_nonempty (Secret cfg)) as Hne.
    apply String.eqb_neq in Hne.
    destruct Hmissing as [-> | ->]; now rewrite Hne.
  - intros rest Hfirst. rewrite withSecret_run. unfold authorized, Header_Get.
    now rewrite Hfirst, String.eqb_refl, orb_true_r.
Qed.

Lemma withSecret_header_values_witness :
  withSecret Sample.cfg handleHead "req-1" (mkRequest "GET" "/" ∅ [])
  = panic (VError newInvalidSecretError)
  /\ withSecret Sample.cfg handleHead "req-1"
       (Sample.GET_root ["Bearer s3cret"; "Bearer wrong"])
     = handleHead "req-1" (Sample.GET_root ["Bearer s3cret"; "Bearer wrong"]).
Proof.
  split.
  - apply (withSecret_header_values Sample.cfg handleHead "req-1"
             (mkRequest "GET" "/" ∅ [])); [discriminate|].
    left. reflexivity.
  - apply (withSecret_header_values Sample.cfg handleHead "req-1"
             (Sample.GET_root ["Bearer s3cret"; "Bearer wrong"]))
      with (rest := ["Bearer wrong"]); [discriminate|].
    reflexivity.
Defined.

(** ** The main processing route, continued *)

Lemma error_abort_dec (err : error) :
  {err = ErrAbortHandler} + {err <> ErrAbortHandler}.
Proof. destruct err; (left; reflexivity) || (right; discriminate). Defined.

Lemma isolate_error (cfg : Config) (reqID : string) (t : list event) (err : error) :
  err <> ErrAbortHandler ->
  isolate cfg reqID t (Panicked (VError err))
  = if accepted t (ierrors.StatusCode (ierrors.Wrap err 0 []))
    then (rendering cfg reqID err, Returned tt)
    else (announced reqID err,
          Panicked (invalid_code (ierrors.StatusCode (ierrors.Wrap err 0 [])))).
Proof. intros Hne. destruct err; try reflexivity. contradiction. Qed.

Lemma reraised_error (err : error) : reraised (VError err) -> err = ErrAbortHandler.
Proof. intros [H|[x H]]; [now injection H | discriminate]. Qed.

(** What leaves fault isolation as a panic. *)
Lemma isolate_result (cfg : Config) (reqID : string) (t : list event)
    (o : outcome unit) (v : value) :
  result (isolate cfg reqID t o) = Panicked v
  <-> (o = Panicked v /\ reraised v)
      \/ (exists err,
            o = Panicked (VError err)
            /\ err <> ErrAbortHandler
            /\ accepted t (ierrors.StatusCode (ierrors.Wrap err 0 [])) = false
            /\ v = invalid_code (ierrors.StatusCode (ierrors.Wrap err 0 []))).
Proof.
  destruct o as [a|[err|repr]].
  - simpl. split; [discriminate|].
    intros [[H _]|(e & H & _)]; discriminate.
  - destruct (error_abort_dec err) as [->|Hne].
    + simpl. split.
      * intros H. injection H as <-. left. split; [reflexivity|]. now left.
      * intros [[H _]|(e & H & Hab & _)]; [exact H|].
        injection H as <-. contradiction.
    + rewrite (isolate_error cfg reqID t err Hne).
      destruct (accepted t (ierrors.StatusCode (ierrors.Wrap err 0 []))) eqn:Hacc;
        simpl; split.
      * discriminate.
      * intros [[H Hre]|(e & H & _ & Hacc' & _)].
        -- injection H as <-. apply reraised_error in Hre. contradiction.
        -- injection H as <-. congruence.
      * intros H. injection H as <-. right. exists err. auto.
      * intros [[H Hre]|(e & H & _ & _ & ->)].
        -- injection H as <-. apply reraised_error in Hre. contradiction.
        -- injection H as <-. reflexivity.
  - simpl. split.
    + intros H. injection H as <-. left. split; [reflexivity|]. right. eauto.
    + intros [[H _]|(e & H & _)]; [exact H | discriminate].
Qed.

Lemma authorized_as_processed (cfg : Config) (r : Request) :
  authorized cfg (as_processed cfg r) = authorized cfg r.
Proof. unfold authorized, as_processed. now destruct (MetricsEnabled cfg). Qed.

(** [main_handler] is the handler of the prefix route GET "/". *)
Lemma main_handler_registered
    (cfg : Config) (handleLanding handleProcessing : RouteHandler)
    (vips_Health : option error) :
  router.mkRoute "GET" "/" (main_handler cfg handleProcessing) false
  ∈ router.Routes (buildRouter cfg handleLanding handleProcessing vips_Health).
Proof. unfold buildRouter, main_handler. simpl. set_solver. Qed.

(** The main handler, run: the layers from the outside in. *)
Lemma main_handler_run (cfg : Config) (business : RouteHandler) (reqID : string)
    (r : Request) :
  main_handler cfg business reqID r
  = let inner := if (len (Secret cfg) =? 0) || authorized cfg r
                 then business reqID (as_processed cfg r)
                 else panic (VError newInvalidSecretError) in
    let handled := isolate cfg reqID (trace inner) (result inner) in
    ((if MetricsEnabled cfg then [MetricsStartRequest] else [])
       ++ [ReportStartRequest; SetMetadata "Request ID" reqID]
       ++ cors_headers cfg ++ trace inner ++ trace handled
       ++ (if MetricsEnabled cfg then [MetricsCancel] else []),
     result handled).
Proof.
  unfold main_handler. cbv zeta.
  rewrite <- (authorized_as_processed cfg r). unfold as_processed.
  destruct (MetricsEnabled cfg) eqn:Hmetrics.
  - rewrite withMetrics_enabled by exact Hmetrics.
    rewrite isolated_layers. cbv zeta. simpl.
    now rewrite <- !app_assoc.
  - rewrite withMetrics_disabled by exact Hmetrics.
    rewrite isolated_layers. cbv zeta. simpl.
    now rewrite !app_nil_r.
Qed.

(** X8.  On the main route, with a secret configured, a request whose
    Authorization header is not "Bearer <secret>" never reaches the
    business handler: the route returns normally after answering 403
    with the body "Forbidden" ("Invalid secret" in development-errors
    mode), with the CORS headers when an origin is configured, without
    any report to the error reporter, and with the metrics span closed. *)
Theorem main_route_rejects (cfg : Config) (handleProcessing : RouteHandler)
    (reqID : string) (r : Request) :
  len (Secret cfg) <> 0 ->
  Header_Get (Header r) "Authorization" <> "Bearer " +:+ Secret cfg ->
  let run := main_handler cfg handleProcessing reqID r in
  let body := if DevelopmentErrorsMode cfg then "Invalid secret" else "Forbidden" in
  run = ((if MetricsEnabled cfg then [MetricsStartRequest] else [])
           ++ [ReportStartRequest; SetMetadata "Request ID" reqID]
           ++ cors_headers cfg
           ++ [LogResponse reqID 403
                 (Some (mkError InvalidSecretError (Some 403) (Some "Forbidden") false));
               HeaderSet "Content-Type" "text/plain";
               WriteHeader 403;
               Write body]
           ++ (if MetricsEnabled cfg then [MetricsCancel] else []),
         Returned tt)
  /\ response_status (trace run) = Some 403
  /\ response_body (trace run) = body
  /\ calls is_Report (trace run) = 0%nat
  /\ calls is_WriteHeader (trace run) = 1%nat.
Proof.
  intros Hset Hauth. cbv zeta.
  apply Z.eqb_neq in Hset. apply String.eqb_neq in Hauth.
  rewrite main_handler_run. cbv zeta. unfold authorized.
  rewrite Hset, Hauth. simpl. unfold rendering, error_body, cors_headers. simpl.
  destruct (MetricsEnabled cfg), (0 <? len (AllowOrigin cfg)),
    (DevelopmentErrorsMode cfg); repeat split.
Qed.

Lemma main_route_rejects_witness :
  let run := main_handler Sample.cfg Faulty.fails_late "req-1"
               (Sample.GET_root ["bearer s3cret"]) in
  result run = Returned tt
  /\ response_status (trace run) = Some 403
  /\ response_body (trace run) = "Forbidden".
Proof.
  destruct (main_route_rejects Sample.cfg Faulty.fails_late "req-1"
              (Sample.GET_root ["bearer s3cret"]))
    as (Hrun & Hstatus & Hbody & _).
  - discriminate.
  - discriminate.
  - cbv zeta. rewrite Hrun. repeat split.
Defined.

(** X9.  A panic leaves the main route exactly when the request was
    admitted by the secret check and either the business handler itself
    raised [http.ErrAbortHandler] or a value that is not an error, which
    escapes unchanged, or it raised another error whose status code
    net/http refuses before any status line was sent, in which case the
    panic of [rw.WriteHeader] escapes.  In particular the invalid-secret
    failure never escapes. *)
Theorem main_route_escapes (cfg : Config) (handleProcessing : RouteHandler)
    (reqID : string) (r : Request) (v : value) :
  result (main_handler cfg handleProcessing reqID r) = Panicked v
  <-> ((len (Secret cfg) =? 0) || authorized cfg r = true
       /\ ((result (handleProcessing reqID (as_processed cfg r)) = Panicked v
            /\ reraised v)
           \/ (exists err,
                 result (handleProcessing reqID (as_processed cfg r))
                   = Panicked (VError err)
                 /\ err <> ErrAbortHandler
                 /\ accepted (trace (handleProcessing reqID (as_processed cfg r)))
                      (ierrors.StatusCode (ierrors.Wrap err 0 [])) = false
                 /\ v = invalid_code
                          (ierrors.StatusCode (ierrors.Wrap err 0 []))))).
Proof.
  rewrite main_handler_run. cbv zeta. unfold result at 1. simpl.
  rewrite isolate_result.
  destruct ((len (Secret cfg) =? 0) || authorized cfg r).
  - tauto.
  - simpl. split.
    + intros [[Hv Hre]|(err & Hv & _ & Hacc & _)].
      * injection Hv as <-. apply reraised_error in Hre. discriminate.
      * injection Hv as <-. vm_compute in Hacc. discriminate.
    + intros [H _]. discriminate.
Qed.

(** X10.  With metrics disabled, no allowed origin and no secret, the
    main route is the business handler under fault isolation alone. *)
Theorem main_route_unconfigured (cfg : Config) (handleProcessing : RouteHandler)
    (reqID : string) (r : Request) :
  MetricsEnabled cfg = false ->
  len (AllowOrigin cfg) = 0 ->
  len (Secret cfg) = 0 ->
  main_handler cfg handleProcessing reqID r
  = withPanicHandler cfg handleProcessing reqID r.
Proof.
  intros Hmetrics Horigin Hsecret. unfold main_handler.
  rewrite withMetrics_disabled by exact Hmetrics.
  rewrite withSecret_unset by exact Hsecret.
  rewrite !withPanicHandler_run. cbv zeta.
  rewrite withCORS_run. unfold cors_headers. rewrite Horigin. reflexivity.
Qed.

Lemma main_route_unconfigured_witness :
  main_handler Sample.bare Faulty.fails_early "req-1" (Sample.GET_root [])
  = withPanicHandler Sample.bare Faulty.fails_early "req-1" (Sample.GET_root []).
Proof.
  apply (main_route_unconfigured Sample.bare Faulty.fails_early "req-1"
           (Sample.GET_root [])); reflexivity.
Defined.

(** ** The taxonomy under fault isolation *)









(** ** CORS on every response of the main route *)

Lemma sets_header_app (key : string) (t1 t2 : list event) :
  sets_header key (t1 ++ t2) = sets_header key t1 || sets_header key t2.
Proof. unfold sets_header. apply existsb_app. Qed.

Lemma rendering_sets_only_Content_Type (cfg : Config) (reqID : string)
    (err : error) (key : string) :
  key <> "Content-Type" -> sets_header key (rendering cfg reqID err) = false.
Proof.
  intros Hkey. unfold rendering.
  assert (Hneq : String.eqb "Content-Type" key = false)
    by (apply String.eqb_neq; congruence).
  unfold sets_header. rewrite existsb_app.
  destruct (ierrors.ShouldReport (ierrors.Wrap err 0 [])); cbn [existsb orb];
    now rewrite Hneq.
Qed.

Lemma announced_sets_only_Content_Type (reqID : string) (err : error)
    (key : string) :
  key <> "Content-Type" -> sets_header key (announced reqID err) = false.
Proof.
  intros Hkey. unfold announced.
  assert (Hneq : String.eqb "Content-Type" key = false)
    by (apply String.eqb_neq; congruence).
  unfold sets_header. rewrite existsb_app.
  destruct (ierrors.ShouldReport (ierrors.Wrap err 0 [])); cbn [existsb orb];
    now rewrite Hneq.
Qed.

Lemma isolate_sets_only_Content_Type (cfg : Config) (reqID : string)
    (t : list event) (o : outcome unit) (key : string) :
  key <> "Content-Type" -> sets_header key (trace (isolate cfg reqID t o)) = false.
Proof.
  intros Hkey. destruct o as [a|[err|repr]]; try reflexivity.
  destruct (error_abort_dec err) as [->|Hne]; [reflexivity|].
  rewrite (isolate_error cfg reqID t err Hne).
  destruct (accepted t (ierrors.StatusCode (ierrors.Wrap err 0 []))).
  - now apply rendering_sets_only_Content_Type.
  - now apply announced_sets_only_Content_Type.
Qed.

(** X14.  With an allowed origin configured, every response sent on the
    main route carries Access-Control-Allow-Origin with that origin,
    whether it is the business handler's own response or an error
    rendered by fault isolation (the 403 of a bad secret included), as
    long as the business handler does not set that header itself. *)
Theorem main_route_cors (cfg : Config) (handleProcessing : RouteHandler)
    (reqID : string) (r : Request) (status : Z)
    (headers : gmap string (list string)) :
  0 < len (AllowOrigin cfg) ->
  sets_header "Access-Control-Allow-Origin"
    (trace (handleProcessing reqID (as_processed cfg r))) = false ->
  sent (response_of (trace (main_handler cfg handleProcessing reqID r)))
    = Some (status, headers) ->
  headers !! "Access-Control-Allow-Origin" = Some [AllowOrigin cfg].
Proof.
  intros Horigin Hkeep. rewrite main_handler_run. cbv zeta.
  set (inner := if (len (Secret cfg) =? 0) || authorized cfg r
                then handleProcessing reqID (as_processed cfg r)
                else panic (VError newInvalidSecretError)).
  assert (Hinner : sets_header "Access-Control-Allow-Origin" (trace inner) = false).
  { unfold inner. now destruct ((len (Secret cfg) =? 0) || authorized cfg r). }
  set (rest := trace inner ++ trace (isolate cfg reqID (trace inner) (result inner))
                 ++ (if MetricsEnabled cfg then [MetricsCancel] else [])).
  assert (Hrest : sets_header "Access-Control-Allow-Origin" rest = false).
  { unfold rest. rewrite !sets_header_app, Hinner.
    rewrite isolate_sets_only_Content_Type by discriminate.
    now destruct (MetricsEnabled cfg). }
  unfold cors_headers. apply Z.ltb_lt in Horigin. rewrite Horigin.
  unfold trace at 1. simpl fst. fold rest. clearbody rest. clear inner Hinner.
  set (w := mkWriter
              (<["Access-Control-Allow-Methods" := ["GET, OPTIONS"]]>
                 (<["Access-Control-Allow-Origin" := [AllowOrigin cfg]]> ∅))
              None "").
  intros Hsent.
  assert (Hsent' : sent (fold_left writer_step rest w) = Some (status, headers)).
  { revert Hsent. unfold response_of.
    destruct (MetricsEnabled cfg); simpl; exact (fun H => H). }
  assert (Hpending : pending w !! "Access-Control-Allow-Origin"
                     = Some [AllowOrigin cfg]).
  { cbn [pending w]. rewrite lookup_insert_ne by discriminate.
    apply lookup_insert_eq. }
  destruct (header_kept _ _ _ w Hrest Hpending) as [_ Hkept].
  - discriminate.
  - exact (Hkept _ Hsent').
Qed.

Lemma main_route_cors_witness :
  exists headers,
    sent (response_of (trace (main_handler Sample.cfg Sample.idle "req-1"
                                (Sample.GET_root ["Bearer wrong"]))))
    = Some (403, headers)
    /\ headers !! "Access-Control-Allow-Origin" = Some ["*"].
Proof.
  eexists. split; [reflexivity|].
  apply (main_route_cors Sample.cfg Sample.idle "req-1"
           (Sample.GET_root ["Bearer wrong"]) 403); reflexivity.
Defined.
